(** * Monitoring dashboard core: event bus, poller, status, alerts, charts

    A shallow embedding of the dashboard script (the revision with the
    [serviceDisplayNames] table and [setInitialState]) and the properties
    its specification states about it.

    Modelling conventions.
    - JavaScript numbers coming from the JSON snapshot are exact rationals
      ([Q]): a number stands for the exact value of the double the parser
      produced, and comparisons and [toFixed(1)] are taken on that value.
    - A snapshot is decoded into typed payloads: a metric field is either
      absent or a number, a status field is either absent or a string.
      Snapshots in which a metric is [null] or of another JSON type are not
      covered.
    - Module-level singletons ([apiService], [chartModule], the DOM) become
      one explicit [World] record threaded through every operation; the
      subscriber table of [eventBus] is kept beside it.
    - Callbacks may throw: they return an [Outcome], and [forEach] stops at
      the first one that throws, as [Array.prototype.forEach] does.
    - An [async] function is cut at its [await]: [fetchAllStats] is the
      request it issues and, later, the settling of that request. *)

From Stdlib Require Import Ascii String QArith Qround Qabs.
From stdpp Require Import base option list strings pretty gmap.

Local Open Scope string_scope.
Local Open Scope Z_scope.
Local Open Scope list_scope.

(** ** Configuration *)

Record Config := {
  apiEndpoint : string;
  refreshInterval : Z;
  maxChartPoints : nat;
  maxLogEntries : nat;
  maxAlerts : nat
}.

Definition config : Config := {|
  apiEndpoint := "";
  refreshInterval := 2000;
  maxChartPoints := 30;
  maxLogEntries := 50;
  maxAlerts := 5
|}.

(** ** JavaScript primitives used by the script *)

Module Js.

(** [x || d] for a possibly absent number: [undefined] and [0] are falsy. *)
Definition or_num (x : option Q) (d : Q) : Q :=
  match x with
  | Some q => if Qeq_bool q 0 then d else q
  | None => d
  end.

(** [x < y] and [x > y] on numbers. *)
Definition lt (x y : Q) : bool := negb (Qle_bool y x).
Definition gt (x y : Q) : bool := negb (Qle_bool x y).

(** [x === s] for a possibly absent string. *)
Definition str_is (x : option string) (s : string) : bool :=
  match x with
  | Some v => bool_decide (v = s)
  | None => false
  end.

(** [Number.prototype.toFixed(1)] for a magnitude below 10^21: the sign is
    split off, the magnitude is rounded to the nearest tenth, ties going up.
    (From 10^21 on JavaScript switches to exponent notation, which this
    function does not render; the properties that depend on the text are
    stated within [fixedRange].) *)
Definition toFixed1 (x : Q) : string :=
  let n := Qfloor (Qabs x * 10 + (1 # 2))%Q in
  (if negb (Qle_bool 0 x) then "-" else "")
    +:+ pretty (n / 10) +:+ "." +:+ pretty (n mod 10).

Definition upper_ascii (c : ascii) : ascii :=
  let n := nat_of_ascii c in
  if ((97 <=? n)%nat && (n <=? 122)%nat)%bool then ascii_of_nat (n - 32) else c.

(** [String.prototype.toUpperCase] on the ASCII range. *)
Fixpoint toUpperCase (s : string) : string :=
  match s with
  | EmptyString => EmptyString
  | String c r => String (upper_ascii c) (toUpperCase r)
  end.

Fixpoint startsWith (s p : string) {struct p} : bool :=
  match p, s with
  | EmptyString, _ => true
  | String a p', String b s' => bool_decide (a = b) && startsWith s' p'
  | String _ _, EmptyString => false
  end.

(** [String.prototype.includes]: [m] occurs in [s] at some position. *)
Fixpoint includes (s m : string) : bool :=
  startsWith s m ||
  match s with
  | EmptyString => false
  | String _ s' => includes s' m
  end.

(** [Array.prototype.join] on strings. *)
Fixpoint join (sep : string) (l : list string) : string :=
  match l with
  | [] => ""
  | [x] => x
  | x :: r => x +:+ sep +:+ join sep r
  end.

(** The members every plain object inherits from [Object.prototype]. For
    one of these names [obj[name]] is truthy on an object that has no such
    key of its own. *)
Definition objectPrototypeNames : list string :=
  [ "constructor"; "__defineGetter__"; "__defineSetter__"; "hasOwnProperty";
    "__lookupGetter__"; "__lookupSetter__"; "isPrototypeOf";
    "propertyIsEnumerable"; "toString"; "valueOf"; "__proto__";
    "toLocaleString" ].

(** Text that [innerHTML] renders as it is written and that [toUpperCase]
    maps letter by letter: printable ASCII other than ['<'] and ['&']. *)
Definition plain_char (c : ascii) : bool :=
  let n := nat_of_ascii c in
  ((32 <=? n)%nat && (n <=? 126)%nat && negb (n =? 60)%nat
   && negb (n =? 38)%nat)%bool.

Definition plain (s : string) : bool :=
  forallb plain_char (list_ascii_of_string s).

(** The range in which [toFixed] writes digits; from 10^21 on it switches to
    exponent notation. *)
Definition fixedRange (x : Q) : bool :=
  (negb (Qle_bool x (- (1000000000000000000000 # 1)))
   && negb (Qle_bool (1000000000000000000000 # 1) x))%bool.

End Js.

(** ** Snapshot payloads *)

(** The ['load-balancer'] entry of a snapshot. Each metric is a number or
    absent. A metric that is [null] or of another JSON type, on which
    [toFixed] throws, is not a value of this type: what is proved of
    snapshots is proved of snapshots whose metrics are numbers. *)
Record LbData := {
  success_rate : option Q;
  avg_response_time_ms : option Q;
  requests_per_second : option Q;
  total_requests : option Q
}.

(** The entry of any other service key. *)
Record ServiceData := {
  status : option string;
  service_status : option string;
  hit_ratio : option Q;
  active_session_count : option Q
}.

(** A decoded snapshot: [stats['load-balancer']] and [stats[key]] for every
    other key. A key whose value is absent (or falsy) is not in the map. *)
Record Stats := {
  load_balancer : option LbData;
  services : gmap string ServiceData
}.

Record JsError := { error_message : string }.

(** The object passed to [publish]; a field that the literal does not set is
    [None] (or [false] for the flag, which is only ever negated). *)
Record Payload := {
  stats : option Stats;
  isFetchSuccess : bool;
  error : option JsError;
  message : option string;
  type : option string
}.

(** ** The event bus *)

Section EventBus.

(** [W] is the state the callbacks act on, [D] the published data. *)
Context {W D : Type}.

Inductive Outcome :=
| Returned (w : W)
| Threw (e : JsError) (w : W).

Definition outcome_world (o : Outcome) : W :=
  match o with
  | Returned w => w
  | Threw _ w => w
  end.

Definition Callback := D → W → Outcome.

(** [eventBus.events]: event name to the array of its callbacks. The
    object is a plain one, so the table is that of the names it holds as its
    own; the names of [Js.objectPrototypeNames], on which [subscribe] and
    [publish] find an inherited member and throw, are outside it. The script
    uses ['statsUpdated'], ['fetchError'], ['log'] and ['reset']. *)
Local Abbreviation Events := (gmap string (list Callback)).

Definition subscribe (eventName : string) (callback : Callback)
    (events : Events) : Events :=
  let events1 :=
    match events !! eventName with
    | None => <[eventName := []]> events
    | Some _ => events
    end in
  alter (λ l, l ++ [callback]) eventName events1.

(** [callbacks.forEach(callback => callback(data))]: an exception leaves
    the loop at once and reaches the caller. *)
Fixpoint forEach (callbacks : list Callback) (data : D) (w : W) : Outcome :=
  match callbacks with
  | [] => Returned w
  | callback :: rest =>
      match callback data w with
      | Returned w' => forEach rest data w'
      | Threw e w' => Threw e w'
      end
  end.

Definition publish (events : Events) (eventName : string) (data : D)
    (w : W) : Outcome :=
  match events !! eventName with
  | Some callbacks => forEach callbacks data w
  | None => Returned w
  end.

End EventBus.

Arguments Outcome : clear implicits.
Arguments Callback : clear implicits.

Abbreviation Events W D := (gmap string (list (Callback W D))).

(** ** The page and the module singletons *)

Record Element := { textContent : string; className : string }.

(** One rendered [<li class="server-item">]: the service name and whether
    the indicator is [status-healthy]/Online or [status-error]/Offline. *)
Record ServiceState := { name : string; isHealthy : bool }.

(** One [<div class="log-entry">]. *)
Record LogEntry := { log_text : string; log_color : string }.

(** [chart.data.labels] and [chart.data.datasets[0].data]. *)
Record Chart := { labels : list string; data : list Q }.

Record Charts := { responseTime : option Chart; throughput : option Chart }.

(** [statusModule.elements]. The script dereferences every element but
    [serverList] without a test, so those are the elements of the page;
    [serverList] is tested and may be missing. [totalRequests] and
    [activeSessions] hold the number whose rendering is the element's text
    ([toLocaleString] and the implicit conversion are not modelled). *)
Record Elements := {
  overallStatus : Element;
  activeServices : string;
  totalRequests : Q;
  successRate : string;
  serverList : option (list ServiceState);
  currentRps : string;
  avgResponseTime : string;
  errorRate : string;
  dbStatus : Element;
  cacheHitRate : string;
  activeSessions : Q
}.

Inductive TimerCallback := FetchAllStats | UpdateTime.

#[global] Instance TimerCallback_eq_dec : EqDecision TimerCallback.
Proof. solve_decision. Defined.

Record Timer := { callback : TimerCallback; delay : Z }.

Record World := {
  (** [new Date().toLocaleTimeString()], set by the environment *)
  clock : string;
  (** [apiService] *)
  monitoringEnabled : bool;
  fetchIntervalId : option positive;
  (** requests issued by [fetch] and not yet settled *)
  pendingFetches : nat;
  (** active [setInterval] timers of the window *)
  timers : gmap positive Timer;
  (** [chartModule.charts] *)
  charts : Charts;
  (** [statusModule.elements] *)
  elements : Elements;
  (** children of [#alerts-container], first child first *)
  alertsContainer : option (list Element);
  (** children of [#logs-container], first child first *)
  logsContainer : option (list LogEntry)
}.

Definition set_clock (now : string) (w : World) : World :=
  {| clock := now; monitoringEnabled := monitoringEnabled w;
     fetchIntervalId := fetchIntervalId w; pendingFetches := pendingFetches w;
     timers := timers w; charts := charts w; elements := elements w;
     alertsContainer := alertsContainer w; logsContainer := logsContainer w |}.

Definition set_monitoringEnabled (b : bool) (w : World) : World :=
  {| clock := clock w; monitoringEnabled := b;
     fetchIntervalId := fetchIntervalId w; pendingFetches := pendingFetches w;
     timers := timers w; charts := charts w; elements := elements w;
     alertsContainer := alertsContainer w; logsContainer := logsContainer w |}.

Definition set_fetchIntervalId (i : option positive) (w : World) : World :=
  {| clock := clock w; monitoringEnabled := monitoringEnabled w;
     fetchIntervalId := i; pendingFetches := pendingFetches w;
     timers := timers w; charts := charts w; elements := elements w;
     alertsContainer := alertsContainer w; logsContainer := logsContainer w |}.

Definition set_pendingFetches (n : nat) (w : World) : World :=
  {| clock := clock w; monitoringEnabled := monitoringEnabled w;
     fetchIntervalId := fetchIntervalId w; pendingFetches := n;
     timers := timers w; charts := charts w; elements := elements w;
     alertsContainer := alertsContainer w; logsContainer := logsContainer w |}.

Definition set_timers (t : gmap positive Timer) (w : World) : World :=
  {| clock := clock w; monitoringEnabled := monitoringEnabled w;
     fetchIntervalId := fetchIntervalId w; pendingFetches := pendingFetches w;
     timers := t; charts := charts w; elements := elements w;
     alertsContainer := alertsContainer w; logsContainer := logsContainer w |}.

Definition set_charts (c : Charts) (w : World) : World :=
  {| clock := clock w; monitoringEnabled := monitoringEnabled w;
     fetchIntervalId := fetchIntervalId w; pendingFetches := pendingFetches w;
     timers := timers w; charts := c; elements := elements w;
     alertsContainer := alertsContainer w; logsContainer := logsContainer w |}.

Definition set_elements (e : Elements) (w : World) : World :=
  {| clock := clock w; monitoringEnabled := monitoringEnabled w;
     fetchIntervalId := fetchIntervalId w; pendingFetches := pendingFetches w;
     timers := timers w; charts := charts w; elements := e;
     alertsContainer := alertsContainer w; logsContainer := logsContainer w |}.

Definition set_alertsContainer (a : option (list Element)) (w : World) : World :=
  {| clock := clock w; monitoringEnabled := monitoringEnabled w;
     fetchIntervalId := fetchIntervalId w; pendingFetches := pendingFetches w;
     timers := timers w; charts := charts w; elements := elements w;
     alertsContainer := a; logsContainer := logsContainer w |}.

Definition set_logsContainer (l : option (list LogEntry)) (w : World) : World :=
  {| clock := clock w; monitoringEnabled := monitoringEnabled w;
     fetchIntervalId := fetchIntervalId w; pendingFetches := pendingFetches w;
     timers := timers w; charts := charts w; elements := elements w;
     alertsContainer := alertsContainer w; logsContainer := l |}.

Definition TypeError : JsError := {| error_message := "TypeError" |}.

(** [window.setInterval] returns a handle, a positive integer, that no
    active timer has. *)
Definition setInterval (cb : TimerCallback) (ms : Z) (w : World)
    : positive * World :=
  let id := fresh (dom (timers w)) in
  (id, set_timers (<[id := {| callback := cb; delay := ms |}]> (timers w)) w).

(** [window.clearInterval]; clearing a handle that is not active does
    nothing. *)
Definition clearInterval (id : positive) (w : World) : World :=
  set_timers (delete id (timers w)) w.

(** The data of every event of the script is one object literal, or nothing
    at all ([publish('reset')]). *)
Abbreviation Bus := (Events World (option Payload)).

(** [eventBus.events] together with everything else. *)
Record System := { events : Bus; world : World }.

(** A callback whose parameter is a destructuring pattern throws when it is
    called without data. *)
Definition destructuring (f : Payload → World → Outcome World)
    : Callback World (option Payload) :=
  λ data w,
    match data with
    | Some p => f p w
    | None => Threw TypeError w
    end.

(** Sequencing of statements that may throw. *)
Definition andThen {W : Type} (o : Outcome W) (f : W → Outcome W) : Outcome W :=
  match o with
  | Returned w => f w
  | Threw e w => Threw e w
  end.

(** ** chartModule *)

Module chartModule.

Definition newChart : Chart := {| labels := []; data := [] |}.

(** The two [new Chart(...)] of [init]. *)
Definition init_charts (w : World) : World :=
  set_charts {| responseTime := Some newChart; throughput := Some newChart |} w.

(** The inner [updateChart(chart, data)] of [update]. *)
Definition updateChart (cfg : Config) (now : string) (chart : option Chart)
    (v : Q) : option Chart :=
  match chart with
  | None => None
  | Some c =>
      let labels1 := labels c ++ [now] in
      let data1 := data c ++ [v] in
      if (maxChartPoints cfg <? length labels1)%nat
      then Some {| labels := tail labels1; data := tail data1 |}
      else Some {| labels := labels1; data := data1 |}
  end.

Definition update (cfg : Config) (stats : option Stats) (w : World) : World :=
  let now := clock w in
  let lbData := stats ≫= load_balancer in
  set_charts
    {| responseTime :=
         updateChart cfg now (responseTime (charts w))
           (Js.or_num (lbData ≫= avg_response_time_ms) 0);
       throughput :=
         updateChart cfg now (throughput (charts w))
           (Js.or_num (lbData ≫= requests_per_second) 0) |} w.

Definition resetChart (chart : option Chart) : option Chart :=
  match chart with
  | None => None
  | Some _ => Some {| labels := []; data := [] |}
  end.

Definition reset (w : World) : World :=
  set_charts
    {| responseTime := resetChart (responseTime (charts w));
       throughput := resetChart (throughput (charts w)) |} w.

Definition init (cfg : Config) (sys : System) : Outcome System :=
  let w1 := init_charts (world sys) in
  let ev1 :=
    subscribe "statsUpdated"
      (destructuring (λ p w, Returned (update cfg (stats p) w))) (events sys) in
  let ev2 := subscribe "reset" (λ _ w, Returned (reset w)) ev1 in
  Returned {| events := ev2; world := w1 |}.

End chartModule.

(** ** statusModule *)

Module statusModule.

(** Key order is the order of the object literal, which is the order
    [for (const key in ...)] visits. *)
Definition serviceDisplayNames : list (string * string) :=
  [ ("api-gateway", "API Gateway"); ("auth", "Auth Service");
    ("user_service", "User Service"); ("blog_service", "Blog Service");
    ("database", "Database"); ("cache", "Cache") ].

Definition set_serverList (l : option (list ServiceState)) (e : Elements)
    : Elements :=
  {| overallStatus := overallStatus e; activeServices := activeServices e;
     totalRequests := totalRequests e; successRate := successRate e;
     serverList := l; currentRps := currentRps e;
     avgResponseTime := avgResponseTime e; errorRate := errorRate e;
     dbStatus := dbStatus e; cacheHitRate := cacheHitRate e;
     activeSessions := activeSessions e |}.

Definition set_overallStatus (x : Element) (e : Elements) : Elements :=
  {| overallStatus := x; activeServices := activeServices e;
     totalRequests := totalRequests e; successRate := successRate e;
     serverList := serverList e; currentRps := currentRps e;
     avgResponseTime := avgResponseTime e; errorRate := errorRate e;
     dbStatus := dbStatus e; cacheHitRate := cacheHitRate e;
     activeSessions := activeSessions e |}.

(** The last statement dereferences [serverList] without a test: on a page
    without [#server-list] it throws after the other texts are set. *)
Definition setInitialState (w : World) : Outcome World :=
  let e := elements w in
  let e1 :=
    {| overallStatus :=
         {| textContent := "CONNECTING...";
            className := "metric-value metric-warning" |};
       activeServices := "0/0";
       totalRequests := 0;
       successRate := "0.0%";
       serverList := serverList e;
       currentRps := "0.0";
       avgResponseTime := "0ms";
       errorRate := "0.0%";
       dbStatus :=
         {| textContent := "N/A"; className := className (dbStatus e) |};
       cacheHitRate := "0.0%";
       activeSessions := 0 |} in
  match serverList e with
  | Some _ => Returned (set_elements (set_serverList (Some []) e1) w)
  | None => Threw TypeError (set_elements e1 w)
  end.

(** The body of the [for ... in] loop for one key of the table. *)
Definition serviceEntry (s : Stats) (entry : string * string)
    : list ServiceState :=
  match services s !! entry.1 with
  | Some serviceData =>
      [ {| name := entry.2;
           isHealthy := Js.str_is (status serviceData) "healthy"
                        || Js.str_is (service_status serviceData) "online" |} ]
  | None => []
  end.

Definition updateServerList (stats : option Stats) (isLbHealthy : bool)
    (w : World) : list ServiceState * World :=
  match serverList (elements w) with
  | None => ([], w)
  | Some _ =>
      let allServiceStates :=
        {| name := "Load Balancer"; isHealthy := isLbHealthy |} ::
        match stats with
        | Some s => flat_map (serviceEntry s) serviceDisplayNames
        | None => []
        end in
      (allServiceStates,
       set_elements (set_serverList (Some allServiceStates) (elements w)) w)
  end.

Definition update (stats : option Stats) (isFetchSuccess : bool) (w : World)
    : World :=
  match isFetchSuccess, stats with
  | true, Some s =>
      let lbData := load_balancer s in
      let '(serviceStates, w1) := updateServerList stats true w in
      let healthyCount := length (List.filter isHealthy serviceStates) in
      let totalCount := length serviceStates in
      let dbIsHealthy :=
        Js.str_is (services s !! "database" ≫= status) "healthy" in
      set_elements
        {| totalRequests := Js.or_num (lbData ≫= total_requests) 0;
           successRate :=
             Js.toFixed1 (Js.or_num (lbData ≫= success_rate) 0) +:+ "%";
           activeServices := pretty healthyCount +:+ "/" +:+ pretty totalCount;
           overallStatus :=
             if (healthyCount <? totalCount)%nat then
               {| textContent := "DEGRADED";
                  className := "metric-value metric-danger" |}
             else if Js.lt (Js.or_num (lbData ≫= success_rate) 100) 95 then
               {| textContent := "WARNING";
                  className := "metric-value metric-warning" |}
             else
               {| textContent := "HEALTHY";
                  className := "metric-value metric-good" |};
           serverList := serverList (elements w1);
           currentRps :=
             Js.toFixed1 (Js.or_num (lbData ≫= requests_per_second) 0);
           avgResponseTime :=
             Js.toFixed1 (Js.or_num (lbData ≫= avg_response_time_ms) 0) +:+ "ms";
           errorRate :=
             Js.toFixed1 (100 - Js.or_num (lbData ≫= success_rate) 100) +:+ "%";
           dbStatus :=
             {| textContent := if dbIsHealthy then "ONLINE" else "OFFLINE";
                className :=
                  "metric-value "
                  +:+ (if dbIsHealthy then "metric-good" else "metric-danger") |};
           cacheHitRate :=
             Js.toFixed1 (Js.or_num (services s !! "cache" ≫= hit_ratio) 0) +:+ "%";
           activeSessions :=
             Js.or_num (services s !! "auth" ≫= active_session_count) 0 |} w1
  | _, _ =>
      let w1 :=
        set_elements
          (set_overallStatus
             {| textContent := "DISCONNECTED";
                className := "metric-value metric-danger" |} (elements w)) w in
      (updateServerList None false w1).2
  end.

Definition init (sys : System) : Outcome System :=
  let ev1 :=
    subscribe "statsUpdated"
      (destructuring (λ p w, Returned (update (stats p) (isFetchSuccess p) w)))
      (events sys) in
  let ev2 :=
    subscribe "fetchError"
      (destructuring (λ p w, Returned (update None (isFetchSuccess p) w))) ev1 in
  match setInitialState (world sys) with
  | Returned w => Returned {| events := ev2; world := w |}
  | Threw e w => Threw e {| events := ev2; world := w |}
  end.

End statusModule.

(** ** alertModule *)

Module alertModule.

(** The new [<li>]: its text is the text of
    [<strong>TYPE:</strong> message] as [innerHTML] renders it, which for a
    type and a message that are [Js.plain] is the type in upper case, [": "]
    and the message as given. The types and the messages of [checkAlerts]
    are plain; a message with markup is outside this definition. *)
Definition newAlert (type message : string) : Element :=
  {| textContent := Js.toUpperCase type +:+ ": " +:+ message;
     className := "alert-box alert-" +:+ type |}.

Definition addAlert (cfg : Config) (type message : string) (w : World)
    : World :=
  match alertsContainer w with
  | None => w
  | Some children =>
      let alertExists :=
        existsb (λ child, Js.includes (textContent child) message) children in
      if alertExists then w
      else
        let children1 := newAlert type message :: children in
        set_alertsContainer
          (Some (if (maxAlerts cfg <? length children1)%nat
                 then removelast children1 else children1)) w
  end.

Definition downMessage (downServices : list ServiceState) : string :=
  Js.join ", " (map name downServices) +:+ " service(s) are down.".

Definition checkAlerts (cfg : Config) (stats : option Stats) (w : World)
    : World :=
  match stats ≫= load_balancer with
  | None => w
  | Some lbData =>
      let w1 :=
        match success_rate lbData with
        | Some sr =>
            if Js.lt sr 95
            then addAlert cfg "warning"
                   ("Success rate is low: " +:+ Js.toFixed1 sr +:+ "%") w
            else w
        | None => w
        end in
      let w2 :=
        match avg_response_time_ms lbData with
        | Some rt =>
            if Js.gt rt 500
            then addAlert cfg "warning"
                   ("High response time: " +:+ Js.toFixed1 rt +:+ "ms") w1
            else w1
        | None => w1
        end in
      let '(serviceStates, w3) := statusModule.updateServerList stats true w2 in
      let downServices := List.filter (λ s, negb (isHealthy s)) serviceStates in
      if (0 <? length downServices)%nat
      then addAlert cfg "error" (downMessage downServices) w3
      else w3
  end.

Definition init (cfg : Config) (sys : System) : Outcome System :=
  Returned
    {| events :=
         subscribe "statsUpdated"
           (destructuring (λ p w, Returned (checkAlerts cfg (stats p) w)))
           (events sys);
       world := world sys |}.

End alertModule.

(** ** utilityModule *)

Module utilityModule.

(** [addLog(message, type = 'info')]; an absent [message] is rendered by
    the template as ["undefined"]. *)
Definition addLog (cfg : Config) (message : option string)
    (type : option string) (w : World) : World :=
  match logsContainer w with
  | None => w
  | Some children =>
      let type := default "info" type in
      let logEntry :=
        {| log_text := "[" +:+ clock w +:+ "] " +:+ default "undefined" message;
           log_color := if bool_decide (type = "error")
                        then "#f87171" else "#ecf0f1" |} in
      let children1 := logEntry :: children in
      set_logsContainer
        (Some (if (maxLogEntries cfg <? length children1)%nat
               then removelast children1 else children1)) w
  end.

(** The callback of ['fetchError'] reads [error.message]. *)
Definition onFetchError (cfg : Config) (p : Payload) (w : World)
    : Outcome World :=
  match error p with
  | Some e =>
      Returned (addLog cfg (Some ("[ERROR] " +:+ error_message e)) (Some "error") w)
  | None => Threw TypeError w
  end.

Definition init (cfg : Config) (sys : System) : Outcome System :=
  let ev1 :=
    subscribe "log"
      (destructuring (λ p w, Returned (addLog cfg (message p) (type p) w)))
      (events sys) in
  let ev2 := subscribe "fetchError" (destructuring (onFetchError cfg)) ev1 in
  Returned {| events := ev2; world := (setInterval UpdateTime 1000 (world sys)).2 |}.

End utilityModule.

(** ** apiService *)

Module apiService.

(** What [await response.json()] gives. [Json None] is a body whose value
    is falsy, such as [null]. *)
Inductive Body :=
| Unparseable (e : JsError)
| Json (combinedStats : option Stats).

(** How the request of one [fetchAllStats] call settles. *)
Inductive FetchResult :=
| Rejected (e : JsError)
| Response (ok : bool) (body : Body).

(** [fetchAllStats] up to its first [await]: the request goes out unless
    monitoring is off. *)
Definition fetchAllStats_request (w : World) : World :=
  if monitoringEnabled w then set_pendingFetches (S (pendingFetches w)) w
  else w.

Definition fetchError (e : JsError) : option Payload :=
  Some {| stats := None; isFetchSuccess := false; error := Some e;
          message := None; type := None |}.

Definition statsUpdated (combinedStats : option Stats) : option Payload :=
  Some {| stats := combinedStats; isFetchSuccess := true; error := None;
          message := None; type := None |}.

(** [fetchAllStats] from the first [await] on. The [publish] of
    ['statsUpdated'] is inside the [try], so what a subscriber throws is
    caught and published as a ['fetchError']. *)
Definition fetchAllStats_settle (ev : Bus) (r : FetchResult) (w : World)
    : Outcome World :=
  let w0 := set_pendingFetches (pred (pendingFetches w)) w in
  match r with
  | Rejected e => publish ev "fetchError" (fetchError e) w0
  | Response false _ =>
      publish ev "fetchError"
        (fetchError {| error_message := "Backend communication error" |}) w0
  | Response true (Unparseable e) => publish ev "fetchError" (fetchError e) w0
  | Response true (Json combinedStats) =>
      match publish ev "statsUpdated" (statsUpdated combinedStats) w0 with
      | Returned w1 => Returned w1
      | Threw e w1 => publish ev "fetchError" (fetchError e) w1
      end
  end.

Definition logMessage (m : string) : option Payload :=
  Some {| stats := None; isFetchSuccess := false; error := None;
          message := Some m; type := None |}.

Definition start (cfg : Config) (ev : Bus) (w : World) : Outcome World :=
  let w1 := set_monitoringEnabled true w in
  let w2 := fetchAllStats_request w1 in
  let w3 :=
    match fetchIntervalId w2 with
    | Some id => clearInterval id w2
    | None => w2
    end in
  let '(id, w4) := setInterval FetchAllStats (refreshInterval cfg) w3 in
  let w5 := set_fetchIntervalId (Some id) w4 in
  publish ev "log" (logMessage "Monitoring started.") w5.

Definition stop (ev : Bus) (w : World) : Outcome World :=
  let w1 := set_monitoringEnabled false w in
  let w2 :=
    match fetchIntervalId w1 with
    | Some id => clearInterval id w1
    | None => w1
    end in
  publish ev "log" (logMessage "Monitoring paused.") w2.

End apiService.

(** ** controlsModule *)

Module controlsModule.

(** The label and the class of the button are not kept. *)
Definition toggleMonitoring (cfg : Config) (ev : Bus) (w : World)
    : Outcome World :=
  let w1 := set_monitoringEnabled (negb (monitoringEnabled w)) w in
  if monitoringEnabled w1 then apiService.start cfg ev w1
  else apiService.stop ev w1.

(** [resetAllStats] resolves to [true] without a request, so the steps
    after its [await] follow at once. *)
Definition reset (ev : Bus) (w : World) : Outcome World :=
  andThen (publish ev "log" (apiService.logMessage "Resetting statistics...") w)
    (λ w1,
  andThen (publish ev "log"
             (apiService.logMessage "Statistics have been reset.") w1) (λ w2,
  andThen (publish ev "reset" None w2) (λ w3,
  Returned (apiService.fetchAllStats_request w3)))).

Definition refresh (ev : Bus) (w : World) : Outcome World :=
  andThen (publish ev "log"
             (apiService.logMessage "Manual refresh triggered.") w) (λ w1,
  Returned (apiService.fetchAllStats_request w1)).

End controlsModule.

(** ** main *)

(** Runs a [World] operation on the world of a system. *)
Definition onWorld (sys : System) (f : Bus → World → Outcome World)
    : Outcome System :=
  match f (events sys) (world sys) with
  | Returned w => Returned {| events := events sys; world := w |}
  | Threw e w => Threw e {| events := events sys; world := w |}
  end.

(** [controlsModule.init] only attaches click listeners, which are not part
    of the state kept here. *)
Definition main (cfg : Config) (sys : System) : Outcome System :=
  andThen (chartModule.init cfg sys) (λ s1,
  andThen (statusModule.init s1) (λ s2,
  andThen (alertModule.init cfg s2) (λ s3,
  andThen (utilityModule.init cfg s3) (λ s4,
  andThen (onWorld s4 (λ ev,
             publish ev "log"
               (apiService.logMessage "Monitoring dashboard initialized."))) (λ s5,
  onWorld s5 (apiService.start cfg)))))).

(** The page as [index.html] delivers it, before the script runs. *)
Definition page (now : string) : World :=
  {| clock := now;
     monitoringEnabled := true;
     fetchIntervalId := None;
     pendingFetches := 0;
     timers := ∅;
     charts := {| responseTime := None; throughput := None |};
     elements :=
       {| overallStatus :=
            {| textContent := "INITIALIZING";
               className := "metric-value metric-good" |};
          activeServices := "0/0";
          totalRequests := 0;
          successRate := "100%";
          serverList := Some [];
          currentRps := "0";
          avgResponseTime := "0ms";
          errorRate := "0%";
          dbStatus :=
            {| textContent := "N/A"; className := "metric-value metric-good" |};
          cacheHitRate := "0%";
          activeSessions := 0 |};
     alertsContainer := Some [];
     logsContainer := Some [] |}.

Definition boot (cfg : Config) (now : string) : Outcome System :=
  main cfg {| events := ∅; world := page now |}.

(** ** The dashboard as a transition system *)

(** What can happen to a running dashboard. *)
Inductive Action :=
| ClickToggle
| ClickRefresh
| ClickReset
| TimerFires (id : positive)
| Settled (r : apiService.FetchResult)
| ClockShows (now : string).

(** ** Vocabulary of the properties *)

(** Three subscribers that record their run in a trace; the second one
    throws after recording. *)
Module BusExample.

Definition boom : JsError := {| error_message := "boom" |}.

Definition first : Callback (list string) unit :=
  λ _ trace, Returned (trace ++ ["first"]).
Definition second : Callback (list string) unit :=
  λ _ trace, Threw boom (trace ++ ["second"]).
Definition third : Callback (list string) unit :=
  λ _ trace, Returned (trace ++ ["third"]).

Definition events : Events (list string) unit :=
  subscribe "topic" third (subscribe "topic" second (subscribe "topic" first ∅)).

End BusExample.

(** The [n] last elements of a list, in order. *)
Definition lastN {A : Type} (n : nat) (l : list A) : list A :=
  drop (length l - n) l.

(** The points handed to one chart by successive [update] calls, each with
    the clock text of its call. *)
Definition appendPoints (cfg : Config) (pts : list (string * Q))
    (chart : option Chart) : option Chart :=
  foldl (λ c p, chartModule.updateChart cfg p.1 c p.2) chart pts.

(** [eventBus.events] once [main] has run on the page. *)
Definition dashboardEvents (cfg : Config) : Bus :=
  events (outcome_world (main cfg {| events := ∅; world := page "" |})).

(** One action; a timer fires only while it is active, and a request
    settles only while one is pending. *)
Definition act (cfg : Config) (w : World) (a : Action) : World :=
  match a with
  | ClickToggle =>
      outcome_world (controlsModule.toggleMonitoring cfg (dashboardEvents cfg) w)
  | ClickRefresh => outcome_world (controlsModule.refresh (dashboardEvents cfg) w)
  | ClickReset => outcome_world (controlsModule.reset (dashboardEvents cfg) w)
  | TimerFires id =>
      match callback <$> timers w !! id with
      | Some FetchAllStats => apiService.fetchAllStats_request w
      | _ => w
      end
  | Settled r =>
      match pendingFetches w with
      | O => w
      | S _ =>
          outcome_world
            (apiService.fetchAllStats_settle (dashboardEvents cfg) r w)
      end
  | ClockShows now => set_clock now w
  end.

(** The dashboard after [main] and a run of actions. *)
Definition run (cfg : Config) (now : string) (actions : list Action) : World :=
  foldl (act cfg) (world (outcome_world (boot cfg now))) actions.

(** The ways a request can fail: rejected, answered with a status that is
    not 2xx, or answered with a body that does not parse. *)
Definition isFailure (r : apiService.FetchResult) : bool :=
  match r with
  | apiService.Rejected _ => true
  | apiService.Response false _ => true
  | apiService.Response true (apiService.Unparseable _) => true
  | apiService.Response true (apiService.Json _) => false
  end.

(** The service states of a snapshot, as [updateServerList(stats, true)]
    returns them on a page that has the list element. *)
Definition serviceStatesOf (s : Stats) : list ServiceState :=
  {| name := "Load Balancer"; isHealthy := true |}
  :: flat_map (statusModule.serviceEntry s) statusModule.serviceDisplayNames.

(** Whether an entry reports [status: 'healthy'] or
    [service_status: 'online']. *)
Definition reportsHealthy (d : ServiceData) : bool :=
  Js.str_is (status d) "healthy" || Js.str_is (service_status d) "online".

(** A load balancer that reports a success rate of zero and nothing else. *)
Definition zeroRate : Stats :=
  {| load_balancer :=
       Some {| success_rate := Some 0%Q; avg_response_time_ms := None;
               requests_per_second := None; total_requests := None |};
     services := ∅ |}.

Definition healthyService : ServiceData :=
  {| status := Some "healthy"; service_status := None; hit_ratio := None;
     active_session_count := None |}.

(** [{ "load-balancer": {success_rate: 99.2, avg_response_time_ms: 40,
       requests_per_second: 12, total_requests: 500},
       "auth": {status: "healthy"}, "database": {status: "healthy"},
       "cache": {hit_ratio: 80} }] *)
Definition scenario : Stats :=
  {| load_balancer :=
       Some {| success_rate := Some (992 # 10)%Q;
               avg_response_time_ms := Some 40%Q;
               requests_per_second := Some 12%Q;
               total_requests := Some 500%Q |};
     services :=
       <["auth" := healthyService]>
         (<["database" := healthyService]>
            (<["cache" := {| status := None; service_status := None;
                             hit_ratio := Some 80%Q;
                             active_session_count := None |}]> ∅)) |}.

(** One successful poll that decoded [st], on a running dashboard. *)
Definition poll (cfg : Config) (st : Stats) (w : World) : World :=
  outcome_world
    (apiService.fetchAllStats_settle (dashboardEvents cfg)
       (apiService.Response true (apiService.Json (Some st))) w).

(** The dashboard after [main] and one successful poll that decoded [st]. *)
Definition afterPoll (now : string) (st : Stats) : World :=
  poll config st (world (outcome_world (boot config now))).

(** Whether some alert of the queue has a text that contains [m]. *)
Definition shown (m : string) (queue : list Element) : bool :=
  existsb (λ child, Js.includes (textContent child) m) queue.

Definition noMetrics : LbData :=
  {| success_rate := None; avg_response_time_ms := None;
     requests_per_second := None; total_requests := None |}.

Definition downService : ServiceData :=
  {| status := Some "down"; service_status := None; hit_ratio := None;
     active_session_count := None |}.

(** First cycle: auth and database are down. *)
Definition bothDown : Stats :=
  {| load_balancer := Some noMetrics;
     services := <["auth" := downService]> (<["database" := downService]> ∅) |}.

(** Second cycle: auth is back, the database is still down. *)
Definition databaseDown : Stats :=
  {| load_balancer := Some noMetrics;
     services := <["auth" := healthyService]> (<["database" := downService]> ∅) |}.

(** The state in which [checkAlerts] reaches the service rule: the two
    threshold rules have run. *)
Definition afterThresholdRules (cfg : Config) (lbData : LbData) (w : World)
    : World :=
  let w1 :=
    match success_rate lbData with
    | Some sr =>
        if Js.lt sr 95
        then alertModule.addAlert cfg "warning"
               ("Success rate is low: " +:+ Js.toFixed1 sr +:+ "%") w
        else w
    | None => w
    end in
  match avg_response_time_ms lbData with
  | Some rt =>
      if Js.gt rt 500
      then alertModule.addAlert cfg "warning"
             ("High response time: " +:+ Js.toFixed1 rt +:+ "ms") w1
      else w1
  | None => w1
  end.

(** The unhealthy entries of a snapshot, in list order. *)
Definition downServicesOf (s : Stats) : list ServiceState :=
  List.filter (λ x, negb (isHealthy x)) (serviceStatesOf s).

(** A snapshot without the ['load-balancer'] entry in which auth is down. *)
Definition authDownNoLoadBalancer : Stats :=
  {| load_balancer := None; services := <["auth" := downService]> ∅ |}.

(** The active timers whose callback is [fetchAllStats]. *)
Definition pollingTimers (w : World) : gmap positive Timer :=
  filter (λ kv, callback kv.2 = FetchAllStats) (timers w).

(** [apiService] knows every polling timer it has armed: an active one is
    the one recorded in [fetchIntervalId]. *)
Definition timerTracked (w : World) : Prop :=
  ∀ id t, timers w !! id = Some t → callback t = FetchAllStats →
    fetchIntervalId w = Some id.

(** The timers that [start] and [stop] leave after their [clearInterval]. *)
Definition cleared (w : World) : gmap positive Timer :=
  match fetchIntervalId w with
  | Some id => delete id (timers w)
  | None => timers w
  end.

Definition pollingTimer (cfg : Config) : Timer :=
  {| callback := FetchAllStats; delay := refreshInterval cfg |}.

(** A chart that exists, with as many labels as values and no more of them
    than the configured number of points. *)
Definition chartWithin (cfg : Config) (chart : option Chart) : Prop :=
  ∃ c, chart = Some c
    ∧ length (labels c) = length (data c)
    ∧ (length (data c) ≤ maxChartPoints cfg)%nat.

(** An alert container that exists and holds no more than the configured
    number of alerts. *)
Definition queueWithin (cfg : Config) (w : World) : Prop :=
  ∃ q, alertsContainer w = Some q ∧ (length q ≤ maxAlerts cfg)%nat.

(** What holds of the dashboard from [main] on. *)
Record dashboardInvariant (cfg : Config) (w : World) : Prop := {
  inv_timers : timerTracked w;
  inv_serverList : is_Some (serverList (elements w));
  inv_alerts : queueWithin cfg w;
  inv_responseTime : chartWithin cfg (responseTime (charts w));
  inv_throughput : chartWithin cfg (throughput (charts w))
}.

(** ** Vocabulary of the further properties *)

(** [w'] has the timers, the recorded handle and the monitoring flag of
    [w]. *)
Definition samePolling (w w' : World) : Prop :=
  timers w' = timers w
  ∧ fetchIntervalId w' = fetchIntervalId w
  ∧ monitoringEnabled w' = monitoringEnabled w.

(** The handle recorded in [fetchIntervalId], while it names an active
    timer, names a polling timer. *)
Definition handleOwned (w : World) : Prop :=
  ∀ id t, fetchIntervalId w = Some id → timers w !! id = Some t →
    callback t = FetchAllStats.

(** The timer [utilityModule.init] arms for [updateTime]. *)
Definition clockTimer : Timer := {| callback := UpdateTime; delay := 1000 |}.

(** What holds of the timers from [main] on. *)
Record pollingInvariant (w : World) : Prop := {
  pol_tracked : timerTracked w;
  pol_owned : handleOwned w;
  pol_agree :
    size (pollingTimers w) = if monitoringEnabled w then 1%nat else 0%nat;
  pol_clock : ∃ id, timers w !! id = Some clockTimer
}.

(** A log container that exists and holds no more than the configured
    number of entries. *)
Definition logsWithin (cfg : Config) (w : World) : Prop :=
  ∃ l, logsContainer w = Some l ∧ (length l ≤ maxLogEntries cfg)%nat.

(** Both charts exist, share their labels, pair every label with a value
    and stay within the configured number of points. *)
Definition chartsAligned (cfg : Config) (w : World) : Prop :=
  ∃ c1 c2, responseTime (charts w) = Some c1
    ∧ throughput (charts w) = Some c2
    ∧ labels c1 = labels c2
    ∧ length (data c1) = length (labels c1)
    ∧ length (data c2) = length (labels c2)
    ∧ (length (labels c1) ≤ maxChartPoints cfg)%nat.

(** The entry [addLog] builds at the clock text [now]. *)
Definition logEntryOf (now : string) (m : option string * option string)
    : LogEntry :=
  {| log_text := "[" +:+ now +:+ "] " +:+ default "undefined" m.1;
     log_color := if bool_decide (default "info" m.2 = "error")
                  then "#f87171" else "#ecf0f1" |}.

(** A run of [addLog] calls. *)
Definition addLogs (cfg : Config) (ms : list (option string * option string))
    (w : World) : World :=
  foldl (λ v m, utilityModule.addLog cfg m.1 m.2 v) w ms.

(** The snapshot [s] with one more entry, under a [key] other than
    ['load-balancer'] (that entry is the field [load_balancer]). *)
Definition withService (key : string) (d : ServiceData) (s : Stats) : Stats :=
  {| load_balancer := load_balancer s; services := <[key := d]> (services s) |}.

(** The keys of [statusModule.serviceDisplayNames]. *)
Definition recognisedKeys : list string :=
  statusModule.serviceDisplayNames.*1.

(** The dashboard's subscribers and, subscribed after them, one more
    subscriber of ['statsUpdated'] that throws [e]. *)
Definition withThrowingSubscriber (cfg : Config) (e : JsError) : Bus :=
  subscribe "statsUpdated" (λ _ w, Threw e w) (dashboardEvents cfg).

(** ** utilityModule.updateTime *)

(** [String.prototype.padStart(2, '0')]. *)
Definition padStart2 (s : string) : string :=
  match String.length s with
  | O => "00"
  | S O => "0" +:+ s
  | _ => s
  end.

(** The three numbers of [updateTime]: [Math.floor] of a quotient is [/],
    the remainder [%] takes the sign of the dividend as [Z.rem] does. *)
Definition uptimeHours (uptime : Z) : Z := uptime / 3600000.
Definition uptimeMinutes (uptime : Z) : Z := Z.rem uptime 3600000 / 60000.
Definition uptimeSeconds (uptime : Z) : Z := Z.rem uptime 60000 / 1000.

Definition uptimeText (uptime : Z) : string :=
  "Uptime: " +:+ padStart2 (pretty (uptimeHours uptime))
  +:+ ":" +:+ padStart2 (pretty (uptimeMinutes uptime))
  +:+ ":" +:+ padStart2 (pretty (uptimeSeconds uptime)).

(** The texts of [#uptime] and [#current-time]; either element may be
    missing. *)
Record ClockPanel := { uptimeElem : option string; timeElem : option string }.

(** [updateTime] at the instant [dateNow] (milliseconds), whose locale
    rendering is [localeNow], for a script started at [startTime]. *)
Definition updateTime (startTime dateNow : Z) (localeNow : string)
    (p : ClockPanel) : ClockPanel :=
  {| timeElem :=
       match timeElem p with
       | Some _ => Some localeNow
       | None => None
       end;
     uptimeElem :=
       match uptimeElem p with
       | Some _ => Some (uptimeText (dateNow - startTime))
       | None => None
       end |}.

(** The message a failed fetch carries to the log: that of the rejection or
    of the parse error, or the fixed text thrown for a status that is not
    ok. *)
Definition failureMessage (r : apiService.FetchResult) : string :=
  match r with
  | apiService.Rejected e => error_message e
  | apiService.Response false _ => "Backend communication error"
  | apiService.Response true (apiService.Unparseable e) => error_message e
  | apiService.Response true (apiService.Json _) => ""
  end.

(** A snapshot on which no alert rule fires. *)
Definition quietSnapshot : Stats :=
  {| load_balancer :=
       Some {| success_rate := Some (992 # 10)%Q;
               avg_response_time_ms := Some 40%Q;
               requests_per_second := Some 12%Q;
               total_requests := Some 500%Q |};
     services :=
       <["auth" := healthyService]> (<["database" := healthyService]> ∅) |}.

(** A load balancer that answers slowly and fails often. *)
Definition struggling : Stats :=
  {| load_balancer :=
       Some {| success_rate := Some 80%Q;
               avg_response_time_ms := Some 750%Q;
               requests_per_second := None;
               total_requests := None |};
     services := ∅ |}.

(** * Properties *)

(** ** JavaScript primitives *)

Example toFixed1_992 : Js.toFixed1 (992 # 10) = "99.2".
Proof. vm_compute. reflexivity. Qed.
Example toFixed1_neg : Js.toFixed1 (- (50 # 1)) = "-50.0".
Proof. vm_compute. reflexivity. Qed.
Example toFixed1_tie : Js.toFixed1 (125 # 100) = "1.3".
Proof. vm_compute. reflexivity. Qed.
Example upper_warning : Js.toUpperCase "warning" = "WARNING".
Proof. reflexivity. Qed.
Example includes_ex : Js.includes "ERROR: a, b down" "b down" = true.
Proof. reflexivity. Qed.
Example join_ex : Js.join ", " ["a"; "b"; "c"] = "a, b, c".
Proof. reflexivity. Qed.

(** ** The dispatcher *)

Section EventBusFacts.

Context {W D : Type}.
Implicit Types (ev : Events W D) (cb : Callback W D).

Lemma lookup_subscribe_eq ev eventName cb :
  subscribe eventName cb ev !! eventName
  = Some (default [] (ev !! eventName) ++ [cb]).
Proof.
  unfold subscribe.
  destruct (ev !! eventName) as [l|] eqn:E; simpl.
  - by rewrite lookup_alter_eq, E.
  - by rewrite lookup_alter_eq, lookup_insert_eq.
Qed.

Lemma lookup_subscribe_ne ev eventName other cb :
  eventName ≠ other →
  subscribe eventName cb ev !! other = ev !! other.
Proof.
  intros Hne. unfold subscribe.
  destruct (ev !! eventName) as [l|] eqn:E; simpl.
  - by rewrite lookup_alter_ne.
  - by rewrite lookup_alter_ne, lookup_insert_ne.
Qed.

Lemma forEach_app (pre post : list (Callback W D)) data w :
  forEach (pre ++ post) data w
  = match forEach pre data w with
    | Returned w1 => forEach post data w1
    | Threw e w1 => Threw e w1
    end.
Proof.
  revert w. induction pre as [|cb pre IH]; intros w; simpl; [done|].
  destruct (cb data w); [apply IH | done].
Qed.

(** When no callback throws, every one of them runs, in subscription
    order. *)
Lemma forEach_all_return (cbs : list (D → W → W)) data w :
  forEach (map (λ f d x, Returned (f d x)) cbs) data w
  = Returned (foldl (λ x f, f data x) w cbs).
Proof.
  revert w. induction cbs as [|f cbs IH]; intros w; simpl; [done|apply IH].
Qed.

End EventBusFacts.

(** C3, as stated, fails: with three subscribers of one topic of which the
    second throws, [publish] hands the exception to the publisher and the
    third subscriber never runs. *)
Lemma publish_isolation_counterexample :
  BusExample.events !! "topic"
  = Some [BusExample.first; BusExample.second; BusExample.third]
  ∧ publish BusExample.events "topic" () []
    = Threw BusExample.boom ["first"; "second"]
  ∧ "third" ∉ outcome_world (publish BusExample.events "topic" () []).
Proof.
  split; [|split].
  - unfold BusExample.events.
    rewrite !lookup_subscribe_eq, lookup_empty. reflexivity.
  - unfold publish, BusExample.events.
    rewrite !lookup_subscribe_eq, lookup_empty. reflexivity.
  - unfold publish, BusExample.events.
    rewrite !lookup_subscribe_eq, lookup_empty. simpl.
    intros H. apply list_elem_of_In in H. simpl in H.
    destruct H as [H|[H|[]]]; discriminate H.
Qed.

(** C3 (amended): [publish] runs the callbacks of the topic in subscription
    order up to the first one that throws; its exception reaches the
    publisher, with the state as that callback left it, and no callback
    subscribed after it runs. *)
Theorem publish_stops_at_first_throw {W D : Type} (ev : Events W D)
    (eventName : string) (data : D) (pre post : list (Callback W D))
    (h : Callback W D) (e : JsError) (w w1 w2 : W) :
  ev !! eventName = Some (pre ++ h :: post) →
  forEach pre data w = Returned w1 →
  h data w1 = Threw e w2 →
  publish ev eventName data w = Threw e w2.
Proof.
  intros Hev Hpre Hh. unfold publish. rewrite Hev.
  rewrite forEach_app, Hpre. simpl. by rewrite Hh.
Qed.

Lemma publish_stops_at_first_throw_witness :
  publish BusExample.events "topic" () []
  = Threw BusExample.boom ["first"; "second"].
Proof.
  apply (publish_stops_at_first_throw BusExample.events "topic" ()
           [BusExample.first] [BusExample.third] BusExample.second
           BusExample.boom [] ["first"] ["first"; "second"]).
  - unfold BusExample.events.
    rewrite !lookup_subscribe_eq, lookup_empty. reflexivity.
  - reflexivity.
  - reflexivity.
Defined.

(** ** The chart series *)

Section SlidingWindow.

Context {A : Type}.
Implicit Types (l : list A) (x : A).

Lemma tail_drop l : tail l = drop 1 l.
Proof. by destruct l. Qed.

Lemma length_lastN n l : length (lastN n l) = (length l `min` n)%nat.
Proof. unfold lastN. rewrite length_drop. lia. Qed.

Lemma lastN_short n l : (length l ≤ n)%nat → lastN n l = l.
Proof.
  intros H. unfold lastN. by replace (length l - n)%nat with 0%nat by lia.
Qed.

Lemma lastN_app_long n l k : (n ≤ length k)%nat → lastN n (l ++ k) = lastN n k.
Proof.
  intros H. unfold lastN. rewrite length_app.
  rewrite drop_app_ge by lia. f_equal. lia.
Qed.

(** Appending to a full window and dropping its first element gives the
    window of the longer history; a window that is not full just grows. *)
Lemma lastN_snoc n l x :
  lastN n (l ++ [x])
  = if (n <? length (lastN n l ++ [x]))%nat
    then tail (lastN n l ++ [x]) else lastN n l ++ [x].
Proof.
  rewrite length_app, length_lastN. simpl.
  destruct (Nat.ltb_spec n (length l `min` n + 1)) as [Hlt|Hge].
  - assert (n ≤ length l)%nat as Hn by lia.
    rewrite tail_drop. unfold lastN. rewrite length_app. simpl.
    destruct (decide (n = 0%nat)) as [->|Hpos].
    + rewrite !Nat.sub_0_r, drop_all. simpl.
      rewrite drop_ge; [done|]. rewrite length_app. simpl. lia.
    + rewrite (drop_app_le (drop _ l)) by (rewrite length_drop; lia).
      rewrite drop_drop, drop_app_le by lia.
      do 2 f_equal. lia.
  - assert (length l < n)%nat as Hn by lia.
    rewrite (lastN_short n l) by lia.
    apply lastN_short. rewrite length_app. simpl. lia.
Qed.

End SlidingWindow.

Lemma appendPoints_snoc cfg pts p chart :
  appendPoints cfg (pts ++ [p]) chart
  = chartModule.updateChart cfg p.1 (appendPoints cfg pts chart) p.2.
Proof. unfold appendPoints. by rewrite foldl_app. Qed.

(** After any run of insertions, a chart that started within its capacity
    holds the window of everything it was given. *)
Lemma appendPoints_window cfg (c0 : Chart) (pts : list (string * Q)) :
  length (labels c0) = length (data c0) →
  (length (data c0) ≤ maxChartPoints cfg)%nat →
  appendPoints cfg pts (Some c0)
  = Some {| labels := lastN (maxChartPoints cfg) (labels c0 ++ pts.*1);
            data := lastN (maxChartPoints cfg) (data c0 ++ pts.*2) |}.
Proof.
  intros Hlen Hcap. induction pts as [|p pts IH] using rev_ind.
  - simpl. rewrite !app_nil_r, !lastN_short by lia. by destruct c0.
  - rewrite appendPoints_snoc, IH. unfold chartModule.updateChart. simpl.
    rewrite !fmap_app, !app_assoc. simpl.
    rewrite (lastN_snoc _ (labels c0 ++ pts.*1)).
    rewrite (lastN_snoc _ (data c0 ++ pts.*2)).
    replace (length (lastN (maxChartPoints cfg) (data c0 ++ pts.*2) ++ [p.2]))
      with (length (lastN (maxChartPoints cfg) (labels c0 ++ pts.*1) ++ [p.1])).
    + by destruct (_ <? _)%nat.
    + rewrite !length_app, !length_lastN, !length_app, !length_fmap. simpl. lia.
Qed.

(** What [chartModule.update] does to each series is one [updateChart]. *)
Lemma update_is_updateChart cfg stats w :
  responseTime (charts (chartModule.update cfg stats w))
  = chartModule.updateChart cfg (clock w) (responseTime (charts w))
      (Js.or_num ((stats ≫= load_balancer) ≫= avg_response_time_ms) 0)
  ∧ throughput (charts (chartModule.update cfg stats w))
    = chartModule.updateChart cfg (clock w) (throughput (charts w))
        (Js.or_num ((stats ≫= load_balancer) ≫= requests_per_second) 0).
Proof. split; reflexivity. Qed.

(** C6: a series of capacity [C] is a sliding window. Starting from a series
    within its capacity, any run of insertions leaves the [C] last points of
    the whole history, in order; the length never exceeds [C]; and once more
    than [C] points were inserted the series holds exactly the [C] most
    recent of them. *)
Theorem series_is_sliding_window (cfg : Config) (c0 : Chart)
    (pts : list (string * Q)) :
  length (labels c0) = length (data c0) →
  (length (data c0) ≤ maxChartPoints cfg)%nat →
  ∃ c, appendPoints cfg pts (Some c0) = Some c
    ∧ labels c = lastN (maxChartPoints cfg) (labels c0 ++ pts.*1)
    ∧ data c = lastN (maxChartPoints cfg) (data c0 ++ pts.*2)
    ∧ length (labels c) = length (data c)
    ∧ (length (data c) ≤ maxChartPoints cfg)%nat
    ∧ ((maxChartPoints cfg < length pts)%nat →
       labels c = lastN (maxChartPoints cfg) pts.*1
       ∧ data c = lastN (maxChartPoints cfg) pts.*2
       ∧ length (data c) = maxChartPoints cfg).
Proof.
  intros Hlen Hcap. eexists. split; [by apply appendPoints_window|]. simpl.
  split; [done|]. split; [done|].
  rewrite !length_lastN, !length_app, !length_fmap.
  split; [lia|]. split; [lia|]. intros Hmany.
  rewrite !lastN_app_long by (rewrite length_fmap; lia).
  split; [done|]. split; [done|]. lia.
Qed.

(** With the default configuration a chart keeps the 30 last points. *)
Corollary default_series_window (pts : list (string * Q)) :
  appendPoints config pts (Some chartModule.newChart)
  = Some {| labels := lastN 30 pts.*1; data := lastN 30 pts.*2 |}.
Proof.
  rewrite (appendPoints_window config chartModule.newChart pts eq_refl)
    by (simpl; lia).
  reflexivity.
Qed.

Lemma series_is_sliding_window_witness :
  let cfg := {| apiEndpoint := ""; refreshInterval := 2000; maxChartPoints := 2;
                maxLogEntries := 50; maxAlerts := 5 |} in
  ∃ c, appendPoints cfg [("t1", 1%Q); ("t2", 2%Q); ("t3", 3%Q)]
         (Some chartModule.newChart) = Some c
    ∧ labels c = ["t2"; "t3"] ∧ data c = [2%Q; 3%Q] ∧ length (data c) = 2%nat.
Proof.
  intros cfg.
  destruct (series_is_sliding_window cfg chartModule.newChart
              [("t1", 1%Q); ("t2", 2%Q); ("t3", 3%Q)])
    as (c & Hc & _ & _ & _ & _ & Hfull).
  - reflexivity.
  - simpl. lia.
  - destruct Hfull as (Hl & Hd & Hn); [simpl; lia|].
    exists c. split; [exact Hc|]. split; [exact Hl|]. split; [exact Hd | exact Hn].
Defined.

(** ** The subscriptions of the running dashboard *)

Lemma dashboardEvents_statsUpdated cfg :
  dashboardEvents cfg !! "statsUpdated"
  = Some [ destructuring (λ p w, Returned (chartModule.update cfg (stats p) w));
           destructuring
             (λ p w, Returned (statusModule.update (stats p) (isFetchSuccess p) w));
           destructuring (λ p w, Returned (alertModule.checkAlerts cfg (stats p) w)) ].
Proof. reflexivity. Qed.

Lemma dashboardEvents_fetchError cfg :
  dashboardEvents cfg !! "fetchError"
  = Some [ destructuring
             (λ p w, Returned (statusModule.update None (isFetchSuccess p) w));
           destructuring (utilityModule.onFetchError cfg) ].
Proof. reflexivity. Qed.

Lemma dashboardEvents_log cfg :
  dashboardEvents cfg !! "log"
  = Some [ destructuring
             (λ p w, Returned (utilityModule.addLog cfg (message p) (type p) w)) ].
Proof. reflexivity. Qed.

Lemma dashboardEvents_reset cfg :
  dashboardEvents cfg !! "reset" = Some [ λ _ w, Returned (chartModule.reset w) ].
Proof. reflexivity. Qed.

(** [main] runs to its end on the page, and the script keeps the
    [#server-list] element it found. *)
Lemma boot_returns cfg now :
  ∃ sys, boot cfg now = Returned sys
    ∧ events sys = dashboardEvents cfg
    ∧ serverList (elements (world sys)) = Some []
    ∧ alertsContainer (world sys) = Some [].
Proof. eexists. split; [reflexivity|]. split; [reflexivity|]. split; reflexivity. Qed.

(** What one ['fetchError'] does to the dashboard. *)
Lemma publish_fetchError cfg e w :
  publish (dashboardEvents cfg) "fetchError" (apiService.fetchError e) w
  = Returned
      (utilityModule.addLog cfg (Some ("[ERROR] " +:+ error_message e))
         (Some "error") (statusModule.update None false w)).
Proof. unfold publish. rewrite dashboardEvents_fetchError. reflexivity. Qed.

(** What one ['statsUpdated'] does to the dashboard. *)
Lemma publish_statsUpdated cfg st w :
  publish (dashboardEvents cfg) "statsUpdated" (apiService.statsUpdated st) w
  = Returned
      (alertModule.checkAlerts cfg st
         (statusModule.update st true (chartModule.update cfg st w))).
Proof. unfold publish. rewrite dashboardEvents_statsUpdated. reflexivity. Qed.

(** Published without data, ['statsUpdated'] throws in its first subscriber
    and the other two do not run. *)
Lemma publish_statsUpdated_undefined cfg w :
  publish (dashboardEvents cfg) "statsUpdated" None w = Threw TypeError w.
Proof. unfold publish. rewrite dashboardEvents_statsUpdated. reflexivity. Qed.

Lemma publish_log cfg m w :
  publish (dashboardEvents cfg) "log" (apiService.logMessage m) w
  = Returned (utilityModule.addLog cfg (Some m) None w).
Proof. unfold publish. rewrite dashboardEvents_log. reflexivity. Qed.

Lemma settle_failure cfg r w :
  isFailure r = true →
  ∃ e, apiService.fetchAllStats_settle (dashboardEvents cfg) r w
       = Returned
           (utilityModule.addLog cfg (Some ("[ERROR] " +:+ error_message e))
              (Some "error")
              (statusModule.update None false
                 (set_pendingFetches (pred (pendingFetches w)) w))).
Proof.
  intros Hr. destruct r as [e|[] [e|st]]; try discriminate Hr;
    eexists; unfold apiService.fetchAllStats_settle;
    rewrite publish_fetchError; reflexivity.
Qed.

Lemma settle_success cfg st w :
  apiService.fetchAllStats_settle (dashboardEvents cfg)
    (apiService.Response true (apiService.Json st)) w
  = Returned
      (alertModule.checkAlerts cfg st
         (statusModule.update st true
            (chartModule.update cfg st
               (set_pendingFetches (pred (pendingFetches w)) w)))).
Proof.
  unfold apiService.fetchAllStats_settle. by rewrite publish_statsUpdated.
Qed.

Lemma elements_addLog cfg m t w :
  elements (utilityModule.addLog cfg m t w) = elements w.
Proof. unfold utilityModule.addLog. by destruct (logsContainer w). Qed.

Lemma alertsContainer_addLog cfg m t w :
  alertsContainer (utilityModule.addLog cfg m t w) = alertsContainer w.
Proof. unfold utilityModule.addLog. by destruct (logsContainer w). Qed.

Lemma alertsContainer_update st ok w :
  alertsContainer (statusModule.update st ok w) = alertsContainer w.
Proof.
  unfold statusModule.update, statusModule.updateServerList.
  destruct ok, st; simpl; by destruct (serverList (elements w)).
Qed.

(** ** Fetch failures *)

(** C2: whatever the error, a failed fetch leaves the overall status
    [DISCONNECTED] and a service list of the single entry
    ["Load Balancer"], unhealthy. *)
Theorem fetch_failure_disconnected (cfg : Config)
    (r : apiService.FetchResult) (w : World) :
  isFailure r = true →
  is_Some (serverList (elements w)) →
  ∃ w', apiService.fetchAllStats_settle (dashboardEvents cfg) r w = Returned w'
    ∧ textContent (overallStatus (elements w')) = "DISCONNECTED"
    ∧ serverList (elements w')
      = Some [ {| name := "Load Balancer"; isHealthy := false |} ].
Proof.
  intros Hr [l Hl]. destruct (settle_failure cfg r w Hr) as [e ->].
  eexists. split; [reflexivity|]. rewrite elements_addLog.
  unfold statusModule.update, statusModule.updateServerList. simpl.
  rewrite Hl. simpl. done.
Qed.

Lemma fetch_failure_disconnected_witness :
  ∃ w', apiService.fetchAllStats_settle (dashboardEvents config)
          (apiService.Response false (apiService.Json None))
          (afterPoll "12:00:00" scenario)
        = Returned w'
    ∧ textContent (overallStatus (elements w')) = "DISCONNECTED"
    ∧ serverList (elements w')
      = Some [ {| name := "Load Balancer"; isHealthy := false |} ].
Proof.
  apply (fetch_failure_disconnected config
           (apiService.Response false (apiService.Json None))
           (afterPoll "12:00:00" scenario)).
  - reflexivity.
  - eexists. reflexivity.
Defined.

(** C10: a failed fetch leaves the alert queue as it was; none of the
    subscribers of ['fetchError'] is the alert engine. *)
Theorem fetch_failure_keeps_alerts (cfg : Config)
    (r : apiService.FetchResult) (w : World) :
  isFailure r = true →
  alertsContainer
    (outcome_world (apiService.fetchAllStats_settle (dashboardEvents cfg) r w))
  = alertsContainer w.
Proof.
  intros Hr. destruct (settle_failure cfg r w Hr) as [e ->].
  unfold outcome_world.
  by rewrite alertsContainer_addLog, alertsContainer_update.
Qed.

Lemma fetch_failure_keeps_alerts_witness :
  let w := afterPoll "12:00:00" bothDown in
  alertsContainer
    (outcome_world
       (apiService.fetchAllStats_settle (dashboardEvents config)
          (apiService.Rejected {| error_message := "Failed to fetch" |}) w))
  = Some [ alertModule.newAlert "error"
             "Auth Service, Database service(s) are down." ].
Proof.
  intros w.
  apply (fetch_failure_keeps_alerts config
           (apiService.Rejected {| error_message := "Failed to fetch" |}) w).
  reflexivity.
Defined.

(** ** The derived status *)

Lemma updateServerList_present s w l :
  serverList (elements w) = Some l →
  statusModule.updateServerList (Some s) true w
  = (serviceStatesOf s,
     set_elements
       (statusModule.set_serverList (Some (serviceStatesOf s)) (elements w)) w).
Proof. intros H. unfold statusModule.updateServerList. by rewrite H. Qed.

(** How [update] picks the overall status of a decoded snapshot. *)
Lemma update_overallStatus s w l :
  serverList (elements w) = Some l →
  textContent (overallStatus (elements (statusModule.update (Some s) true w)))
  = if (length (List.filter isHealthy (serviceStatesOf s))
        <? length (serviceStatesOf s))%nat then "DEGRADED"
    else if Js.lt (Js.or_num (load_balancer s ≫= success_rate) 100) 95
         then "WARNING" else "HEALTHY".
Proof.
  intros H. unfold statusModule.update.
  rewrite (updateServerList_present s w l H). simpl.
  destruct (_ <? _)%nat; [done|]. by destruct (Js.lt _ _).
Qed.

Lemma filter_length_lt {A : Type} (f : A → bool) (l : list A) (x : A) :
  In x l → f x = false → (length (List.filter f l) < length l)%nat.
Proof.
  intros Hin Hx. induction l as [|y l IH]; [destruct Hin|].
  pose proof (List.filter_length_le f l) as Hle. simpl.
  destruct Hin as [->|Hin].
  - rewrite Hx. lia.
  - specialize (IH Hin). destruct (f y); simpl; lia.
Qed.

Lemma filter_all {A : Type} (f : A → bool) (l : list A) :
  (∀ x, In x l → f x = true) → List.filter f l = l.
Proof.
  intros H. induction l as [|y l IH]; [done|]. simpl.
  rewrite (H y) by (by left). f_equal. apply IH. intros x Hx. apply H. by right.
Qed.

Lemma in_serviceStatesOf s key display d :
  In (key, display) statusModule.serviceDisplayNames →
  services s !! key = Some d →
  In {| name := display; isHealthy := reportsHealthy d |} (serviceStatesOf s).
Proof.
  intros Hk Hd. right. apply in_flat_map. exists (key, display).
  split; [done|]. unfold statusModule.serviceEntry. simpl. rewrite Hd. by left.
Qed.

Lemma serviceStatesOf_inv s x :
  In x (serviceStatesOf s) →
  x = {| name := "Load Balancer"; isHealthy := true |}
  ∨ ∃ key display d, In (key, display) statusModule.serviceDisplayNames
      ∧ services s !! key = Some d
      ∧ x = {| name := display; isHealthy := reportsHealthy d |}.
Proof.
  intros [<-|Hin]; [by left|]. right.
  apply in_flat_map in Hin as ([key display] & Hk & Hx).
  unfold statusModule.serviceEntry in Hx. simpl in Hx.
  destruct (services s !! key) as [d|] eqn:Hd; [|destruct Hx].
  destruct Hx as [<-|[]]. by exists key, display, d.
Qed.

(** One unhealthy recognised service makes the status [DEGRADED], whatever
    the success rate. *)
Lemma update_unhealthy_degraded s w l key display d :
  serverList (elements w) = Some l →
  In (key, display) statusModule.serviceDisplayNames →
  services s !! key = Some d →
  reportsHealthy d = false →
  textContent (overallStatus (elements (statusModule.update (Some s) true w)))
  = "DEGRADED".
Proof.
  intros Hl Hk Hd Hbad. rewrite (update_overallStatus s w l Hl).
  pose proof (in_serviceStatesOf s key display d Hk Hd) as Hin.
  rewrite Hbad in Hin.
  pose proof (filter_length_lt isHealthy _ _ Hin eq_refl) as Hlt.
  apply Nat.ltb_lt in Hlt. by rewrite Hlt.
Qed.

(** With every recognised service healthy, a success rate that is absent or
    at least 95 makes the status [HEALTHY]. *)
Lemma update_all_healthy s w l :
  serverList (elements w) = Some l →
  (∀ key display d, In (key, display) statusModule.serviceDisplayNames →
     services s !! key = Some d → reportsHealthy d = true) →
  match load_balancer s ≫= success_rate with
  | Some sr => Qle_bool 95 sr = true
  | None => True
  end →
  textContent (overallStatus (elements (statusModule.update (Some s) true w)))
  = "HEALTHY".
Proof.
  intros Hl Hall Hsr. rewrite (update_overallStatus s w l Hl).
  rewrite filter_all.
  - rewrite Nat.ltb_irrefl. unfold Js.lt, Js.or_num.
    destruct (load_balancer s ≫= success_rate) as [sr|]; [|done].
    destruct (Qeq_bool sr 0); [done|]. by rewrite Hsr.
  - intros x Hx. apply serviceStatesOf_inv in Hx as [->|(k & n & d & Hk & Hd & ->)];
      [done|]. simpl. by eapply Hall.
Qed.

(** A decoded snapshot never shows [DISCONNECTED]. *)
Lemma update_not_disconnected s w l :
  serverList (elements w) = Some l →
  textContent (overallStatus (elements (statusModule.update (Some s) true w)))
  ≠ "DISCONNECTED".
Proof.
  intros Hl. rewrite (update_overallStatus s w l Hl).
  destruct (_ <? _)%nat; [done|]. by destruct (Js.lt _ _).
Qed.

(** The middle rule fires for a reported rate below 95 unless that rate is
    zero: [success_rate || 100] reads a zero as an absent field. *)
Lemma update_warning_iff s w l :
  serverList (elements w) = Some l →
  (∀ key display d, In (key, display) statusModule.serviceDisplayNames →
     services s !! key = Some d → reportsHealthy d = true) →
  textContent (overallStatus (elements (statusModule.update (Some s) true w)))
  = match load_balancer s ≫= success_rate with
    | Some sr =>
        if Qeq_bool sr 0 then "HEALTHY"
        else if Js.lt sr 95 then "WARNING" else "HEALTHY"
    | None => "HEALTHY"
    end.
Proof.
  intros Hl Hall. rewrite (update_overallStatus s w l Hl).
  rewrite filter_all.
  - rewrite Nat.ltb_irrefl. unfold Js.or_num.
    destruct (load_balancer s ≫= success_rate) as [sr|]; [|done].
    by destruct (Qeq_bool sr 0).
  - intros x Hx. apply serviceStatesOf_inv in Hx as [->|(k & n & d & Hk & Hd & ->)];
      [done|]. simpl. by eapply Hall.
Qed.

(** C1 at a success rate of zero: every listed service is healthy and the
    reported rate is below 95, yet the status shown is [HEALTHY], next to a
    success rate of ["0.0%"]; on the same snapshot the alert engine does
    raise the low-success-rate warning. *)
Theorem zero_success_rate_shows_healthy :
  let w := afterPoll "12:00:00" zeroRate in
  serverList (elements w)
  = Some [ {| name := "Load Balancer"; isHealthy := true |} ]
  ∧ activeServices (elements w) = "1/1"
  ∧ successRate (elements w) = "0.0%"
  ∧ textContent (overallStatus (elements w)) = "HEALTHY"
  ∧ alertsContainer w
    = Some [ alertModule.newAlert "warning" "Success rate is low: 0.0%" ].
Proof. vm_compute. repeat split. Qed.

(** ** The error rate *)

Lemma update_errorRate s w :
  errorRate (elements (statusModule.update (Some s) true w))
  = Js.toFixed1 (100 - Js.or_num (load_balancer s ≫= success_rate) 100) +:+ "%".
Proof.
  unfold statusModule.update.
  by destruct (statusModule.updateServerList (Some s) true w).
Qed.

(** An absent rate gives an error rate of ["0.0%"]; a reported rate other
    than zero gives [100 - rate], without any clamping. *)
Lemma update_errorRate_cases s w :
  errorRate (elements (statusModule.update (Some s) true w))
  = match load_balancer s ≫= success_rate with
    | Some sr =>
        if Qeq_bool sr 0 then "0.0%" else Js.toFixed1 (100 - sr) +:+ "%"
    | None => "0.0%"
    end.
Proof.
  rewrite update_errorRate. unfold Js.or_num.
  destruct (load_balancer s ≫= success_rate) as [sr|]; [|reflexivity].
  destruct (Qeq_bool sr 0); reflexivity.
Qed.

(** C7 at a success rate of zero: the error rate shown is ["0.0%"], where
    [100 - 0] is ["100.0%"]; the success rate shown beside it is ["0.0%"]
    as well. *)
Theorem zero_success_rate_error_rate :
  let w := afterPoll "12:00:00" zeroRate in
  errorRate (elements w) = "0.0%"
  ∧ successRate (elements w) = "0.0%"
  ∧ Js.toFixed1 (100 - 0) +:+ "%" = "100.0%".
Proof. vm_compute. repeat split. Qed.

(** ** The scenario of the specification *)

(** C5, as stated, fails: on the scenario the status is not [HEALTHY], the
    counts are not 3 of 3, and an alert is raised. *)
Lemma scenario_counterexample :
  let w := afterPoll "12:00:00" scenario in
  textContent (overallStatus (elements w)) ≠ "HEALTHY"
  ∧ activeServices (elements w) ≠ "3/3"
  ∧ alertsContainer w ≠ Some [].
Proof. vm_compute. repeat split; discriminate. Qed.

(** C5 (amended): on the scenario the ['cache'] entry is a recognised
    service without a status, so it is listed as unhealthy: the status is
    [DEGRADED], 3 of 4 services are healthy, and one error alert names the
    cache. *)
Theorem scenario_is_degraded :
  let w := afterPoll "12:00:00" scenario in
  textContent (overallStatus (elements w)) = "DEGRADED"
  ∧ activeServices (elements w) = "3/4"
  ∧ serverList (elements w)
    = Some [ {| name := "Load Balancer"; isHealthy := true |};
             {| name := "Auth Service"; isHealthy := true |};
             {| name := "Database"; isHealthy := true |};
             {| name := "Cache"; isHealthy := false |} ]
  ∧ alertsContainer w
    = Some [ alertModule.newAlert "error" "Cache service(s) are down." ].
Proof. vm_compute. repeat split. Qed.

(** ** The alert queue *)

Section Includes.

Lemma startsWith_refl m : Js.startsWith m m = true.
Proof.
  induction m as [|c m IH]; [done|]. simpl.
  rewrite bool_decide_eq_true_2 by done. exact IH.
Qed.

Lemma includes_refl m : Js.includes m m = true.
Proof.
  destruct m as [|c m]; [done|].
  cbn [Js.includes]. by rewrite startsWith_refl.
Qed.

Lemma includes_cons c s m :
  Js.includes s m = true → Js.includes (String c s) m = true.
Proof. intros H. simpl. rewrite H. apply orb_true_r. Qed.

Lemma includes_app_l p s m :
  Js.includes s m = true → Js.includes (p +:+ s) m = true.
Proof.
  intros H. induction p as [|c p IH]; [done|]. by apply includes_cons.
Qed.

Lemma includes_app_r p m : Js.includes (p +:+ m) m = true.
Proof. apply includes_app_l, includes_refl. Qed.

(** The text of an alert contains its message. *)
Lemma includes_newAlert t m :
  Js.includes (textContent (alertModule.newAlert t m)) m = true.
Proof. simpl. apply includes_app_l, includes_app_r. Qed.

End Includes.

Lemma shown_prefix m (rest children : list Element) :
  rest `prefix_of` children → shown m children = false → shown m rest = false.
Proof.
  intros [k ->]. unfold shown. rewrite existsb_app.
  by intros [? _]%orb_false_elim.
Qed.

Lemma filter_not_shown m (queue : list Element) :
  shown m queue = false →
  List.filter (λ child, Js.includes (textContent child) m) queue = [].
Proof.
  induction queue as [|c q IH]; [done|]. unfold shown. simpl.
  intros [Hc Hq]%orb_false_elim. rewrite Hc. by apply IH.
Qed.

Lemma addAlert_skips cfg t m w children :
  alertsContainer w = Some children →
  shown m children = true →
  alertModule.addAlert cfg t m w = w.
Proof.
  intros Hc Hs. unfold alertModule.addAlert. rewrite Hc.
  fold (shown m children). by rewrite Hs.
Qed.

Lemma addAlert_inserts cfg t m w children :
  alertsContainer w = Some children →
  (1 ≤ maxAlerts cfg)%nat →
  shown m children = false →
  alertsContainer (alertModule.addAlert cfg t m w)
  = Some (alertModule.newAlert t m
          :: if (maxAlerts cfg <? S (length children))%nat
             then removelast children else children).
Proof.
  intros Hc Hmax Hs. unfold alertModule.addAlert. rewrite Hc.
  fold (shown m children). rewrite Hs. simpl. f_equal.
  destruct (Nat.ltb_spec (maxAlerts cfg) (S (length children))) as [Hlt|Hge];
    [|done].
  destruct children as [|c children]; [simpl in Hlt; lia|done].
Qed.

Lemma removelast_prefix {A : Type} (l : list A) : removelast l `prefix_of` l.
Proof. rewrite removelast_firstn_len. apply prefix_take. Qed.

(** An alert that no queued text contains goes to the head; the queue
    behind it is the old one, less its last alert when it was full. *)
Lemma addAlert_head cfg t m w children :
  alertsContainer w = Some children →
  (1 ≤ maxAlerts cfg)%nat →
  shown m children = false →
  ∃ rest,
    alertsContainer (alertModule.addAlert cfg t m w)
    = Some (alertModule.newAlert t m :: rest)
    ∧ rest `prefix_of` children
    ∧ ((length children < maxAlerts cfg)%nat → rest = children)
    ∧ ((maxAlerts cfg ≤ length children)%nat →
       ∃ evicted, children = rest ++ [evicted]).
Proof.
  intros Hc Hmax Hs.
  exists (if (maxAlerts cfg <? S (length children))%nat
          then removelast children else children).
  split; [by apply addAlert_inserts|].
  destruct (Nat.ltb_spec (maxAlerts cfg) (S (length children))) as [Hfull|Hroom].
  - split; [apply removelast_prefix|]. split; [lia|]. intros _.
    exists (List.last children (alertModule.newAlert t m)).
    apply app_removelast_last. intros ->. simpl in Hfull. lia.
  - split; [done|]. split; [done|lia].
Qed.

(** C4, as stated, fails: after a cycle that raised
    ["Auth Service, Database service(s) are down."], the next cycle computes
    the distinct message ["Database service(s) are down."]; no queued alert
    has that message, yet it is skipped, because the text of the queued
    alert contains it. *)
Lemma dedup_by_text_counterexample :
  let w1 := afterPoll "12:00:00" bothDown in
  let w2 := poll config databaseDown w1 in
  alertsContainer w1
  = Some [ alertModule.newAlert "error"
             "Auth Service, Database service(s) are down." ]
  ∧ alertModule.downMessage
      (List.filter (λ s, negb (isHealthy s)) (serviceStatesOf databaseDown))
    = "Database service(s) are down."
  ∧ "Database service(s) are down."
    ≠ "Auth Service, Database service(s) are down."
  ∧ alertsContainer w2 = alertsContainer w1.
Proof. vm_compute. repeat split. discriminate. Qed.

(** C4 (amended): insertion deduplicates by containment in the text of a
    queued alert. For a severity and a message of plain text (printable
    ASCII without ['<'] and ['&'], which [innerHTML] renders as written), a
    new alert is skipped, and the queue left untouched, when the text of
    some queued alert contains the new message. Otherwise it is inserted at
    the head with the text [TYPE: message]; behind it is the old queue,
    whole when it held fewer than [maxAlerts] alerts and without its last
    alert, the one evicted, when it held [maxAlerts] or more; the new alert
    is then the only one whose text contains the message. Submitting the
    same message again, under any severity, changes nothing. *)
Theorem addAlert_dedup (cfg : Config) (t m : string) (w : World)
    (children : list Element) :
  Js.plain t = true →
  Js.plain m = true →
  alertsContainer w = Some children →
  (1 ≤ maxAlerts cfg)%nat →
  (shown m children = true → alertModule.addAlert cfg t m w = w)
  ∧ (shown m children = false →
     ∃ rest,
       alertsContainer (alertModule.addAlert cfg t m w)
       = Some ({| textContent := Js.toUpperCase t +:+ ": " +:+ m;
                  className := "alert-box alert-" +:+ t |} :: rest)
       ∧ ((length children < maxAlerts cfg)%nat → rest = children)
       ∧ ((maxAlerts cfg ≤ length children)%nat →
          ∃ evicted, children = rest ++ [evicted])
       ∧ length (List.filter (λ child, Js.includes (textContent child) m)
                   (alertModule.newAlert t m :: rest)) = 1%nat)
  ∧ (∀ t', alertModule.addAlert cfg t' m (alertModule.addAlert cfg t m w)
           = alertModule.addAlert cfg t m w).
Proof.
  intros _ _ Hc Hmax. split; [|split].
  - by apply addAlert_skips.
  - intros Hs.
    destruct (addAlert_head cfg t m w children Hc Hmax Hs)
      as (rest & Hq & Hpre & Hroom & Hfull).
    exists rest. split; [exact Hq|]. split; [exact Hroom|].
    split; [exact Hfull|].
    cbn [List.filter]. rewrite includes_newAlert.
    by rewrite (filter_not_shown m _ (shown_prefix m _ _ Hpre Hs)).
  - intros t'. destruct (shown m children) eqn:Hs.
    + rewrite (addAlert_skips cfg t m w children Hc Hs).
      by apply (addAlert_skips cfg t' m w children).
    + eapply addAlert_skips; [by apply addAlert_inserts|].
      unfold shown. cbn [existsb]. by rewrite includes_newAlert.
Qed.

Lemma addAlert_dedup_witness :
  let w := world (outcome_world (boot config "12:00:00")) in
  let w1 := alertModule.addAlert config "error" "Cache service(s) are down." w in
  alertsContainer w1
  = Some [ alertModule.newAlert "error" "Cache service(s) are down." ]
  ∧ alertModule.addAlert config "error" "Cache service(s) are down." w1 = w1.
Proof.
  intros w w1.
  destruct (addAlert_dedup config "error" "Cache service(s) are down." w [])
    as (_ & _ & Hagain).
  - reflexivity.
  - reflexivity.
  - reflexivity.
  - simpl. lia.
  - split; [reflexivity | exact (Hagain "error")].
Defined.

(** ** The alert rules *)

Lemma elements_addAlert cfg t m w :
  elements (alertModule.addAlert cfg t m w) = elements w.
Proof.
  unfold alertModule.addAlert. destruct (alertsContainer w); [|done].
  by destruct (existsb _ _).
Qed.

Lemma addAlert_present cfg t m w q :
  alertsContainer w = Some q →
  ∃ q', alertsContainer (alertModule.addAlert cfg t m w) = Some q'.
Proof.
  intros Hq. unfold alertModule.addAlert. rewrite Hq.
  destruct (existsb _ _); [by exists q | by eexists].
Qed.

(** After [addAlert], some alert of the queue carries the message. *)
Lemma addAlert_shows cfg t m w q :
  alertsContainer w = Some q →
  (1 ≤ maxAlerts cfg)%nat →
  ∃ q', alertsContainer (alertModule.addAlert cfg t m w) = Some q'
    ∧ shown m q' = true.
Proof.
  intros Hq Hmax. destruct (shown m q) eqn:Hs.
  - exists q. by rewrite (addAlert_skips cfg t m w q Hq Hs).
  - eexists. split; [by apply addAlert_inserts|].
    unfold shown. cbn [existsb]. by rewrite includes_newAlert.
Qed.

Lemma elements_afterThresholdRules cfg lb w :
  elements (afterThresholdRules cfg lb w) = elements w.
Proof.
  unfold afterThresholdRules.
  destruct (success_rate lb) as [sr|], (avg_response_time_ms lb) as [rt|];
    repeat match goal with |- context [if ?b then _ else _] => destruct b end;
    by rewrite ?elements_addAlert.
Qed.

Lemma afterThresholdRules_present cfg lb w q :
  alertsContainer w = Some q →
  ∃ q', alertsContainer (afterThresholdRules cfg lb w) = Some q'.
Proof.
  intros Hq. unfold afterThresholdRules.
  assert (∀ b t m w0, (∃ q0, alertsContainer w0 = Some q0) →
            ∃ q', alertsContainer
                    (if b : bool then alertModule.addAlert cfg t m w0 else w0)
                  = Some q') as Hstep.
  { intros [] t m w0 [q0 H0]; [by eapply addAlert_present | by exists q0]. }
  destruct (success_rate lb) as [sr|], (avg_response_time_ms lb) as [rt|];
    eauto.
Qed.

Lemma checkAlerts_service_rule cfg s lb w l :
  load_balancer s = Some lb →
  serverList (elements w) = Some l →
  alertModule.checkAlerts cfg (Some s) w
  = let w2 := afterThresholdRules cfg lb w in
    let w3 :=
      set_elements
        (statusModule.set_serverList (Some (serviceStatesOf s)) (elements w2)) w2 in
    if (0 <? length (downServicesOf s))%nat
    then alertModule.addAlert cfg "error"
           (alertModule.downMessage (downServicesOf s)) w3
    else w3.
Proof.
  intros Hlb Hl. unfold alertModule.checkAlerts. simpl. rewrite Hlb.
  fold (afterThresholdRules cfg lb w).
  rewrite (updateServerList_present s (afterThresholdRules cfg lb w) l)
    by (by rewrite elements_afterThresholdRules).
  reflexivity.
Qed.

(** C8, as stated, fails: on a snapshot that lacks the ['load-balancer']
    entry the alert engine returns before any rule; auth is listed as
    unhealthy and the status is [DEGRADED], but no alert is raised. *)
Lemma service_alert_counterexample :
  let w := afterPoll "12:00:00" authDownNoLoadBalancer in
  serverList (elements w)
  = Some [ {| name := "Load Balancer"; isHealthy := true |};
           {| name := "Auth Service"; isHealthy := false |} ]
  ∧ textContent (overallStatus (elements w)) = "DEGRADED"
  ∧ alertsContainer w = Some [].
Proof. vm_compute. repeat split. Qed.

(** C8 (amended): for a snapshot that has the ['load-balancer'] entry, with
    metrics that are numbers or absent, and in which a recognised service is
    unhealthy, [checkAlerts] ends, after the two threshold rules and the
    rendering of the service list, by submitting to [addAlert] the severity
    [error] and the message made of the display names of the unhealthy
    services, joined by [", "], followed by [" service(s) are down."]; the
    name of that service is among them. When a text of the queue the
    threshold rules left contains the message, that queue stays; otherwise
    its new head is the alert of class [alert-box alert-error] and text
    ["ERROR: "] and the message, in front of that queue, whole or, when it
    was full, without its last alert. Either way the queue then holds an
    alert whose text contains the message. *)
Theorem checkAlerts_names_down_services (cfg : Config) (s : Stats)
    (lb : LbData) (w : World) (l : list ServiceState) (q : list Element)
    (key display : string) (d : ServiceData) :
  load_balancer s = Some lb →
  serverList (elements w) = Some l →
  alertsContainer w = Some q →
  (1 ≤ maxAlerts cfg)%nat →
  In (key, display) statusModule.serviceDisplayNames →
  services s !! key = Some d →
  reportsHealthy d = false →
  let msg :=
    Js.join ", " (map name (downServicesOf s)) +:+ " service(s) are down." in
  let w2 := afterThresholdRules cfg lb w in
  let w3 :=
    set_elements
      (statusModule.set_serverList (Some (serviceStatesOf s)) (elements w2))
      w2 in
  In display (map name (downServicesOf s))
  ∧ alertModule.checkAlerts cfg (Some s) w
    = alertModule.addAlert cfg "error" msg w3
  ∧ ∃ q2 q',
      alertsContainer w2 = Some q2
      ∧ alertsContainer (alertModule.checkAlerts cfg (Some s) w) = Some q'
      ∧ shown msg q' = true
      ∧ (shown msg q2 = true → q' = q2)
      ∧ (shown msg q2 = false →
         ∃ rest,
           q' = {| textContent := "ERROR: " +:+ msg;
                   className := "alert-box alert-error" |} :: rest
           ∧ ((length q2 < maxAlerts cfg)%nat → rest = q2)
           ∧ ((maxAlerts cfg ≤ length q2)%nat →
              ∃ evicted, q2 = rest ++ [evicted])).
Proof.
  intros Hlb Hl Hq Hmax Hk Hd Hbad msg w2 w3.
  assert (In {| name := display; isHealthy := false |} (downServicesOf s))
    as Hin.
  { apply filter_In. split; [|done].
    rewrite <- Hbad. by apply (in_serviceStatesOf s key display d). }
  split; [by apply (in_map name) in Hin|].
  assert (alertModule.checkAlerts cfg (Some s) w
          = alertModule.addAlert cfg "error" msg w3) as Hcheck.
  { rewrite (checkAlerts_service_rule cfg s lb w l Hlb Hl). cbv zeta.
    destruct (downServicesOf s) as [|x xs] eqn:Hdown; [destruct Hin|].
    reflexivity. }
  split; [exact Hcheck|]. rewrite Hcheck.
  destruct (afterThresholdRules_present cfg lb w q Hq) as [q2 Hq2].
  fold w2 in Hq2.
  assert (alertsContainer w3 = Some q2) as Hq3 by exact Hq2.
  destruct (shown msg q2) eqn:Hs.
  - exists q2, q2. rewrite (addAlert_skips cfg "error" msg w3 q2 Hq3 Hs).
    split; [exact Hq2|]. split; [exact Hq3|]. split; [exact Hs|].
    split; [done|]. intros Hno. congruence.
  - destruct (addAlert_head cfg "error" msg w3 q2 Hq3 Hmax Hs)
      as (rest & Hq' & _ & Hroom & Hfull).
    exists q2, (alertModule.newAlert "error" msg :: rest).
    split; [exact Hq2|]. split; [exact Hq'|]. split.
    + unfold shown. cbn [existsb]. by rewrite includes_newAlert.
    + split; [intros Hyes; congruence|]. intros _. exists rest.
      split; [reflexivity|]. split; [exact Hroom | exact Hfull].
Qed.

Lemma checkAlerts_names_down_services_witness :
  let w := world (outcome_world (boot config "12:00:00")) in
  ∃ q', alertsContainer (alertModule.checkAlerts config (Some bothDown) w)
        = Some q'
    ∧ shown "Auth Service, Database service(s) are down." q' = true.
Proof.
  intros w.
  destruct (checkAlerts_names_down_services config bothDown noMetrics w [] []
              "database" "Database" downService)
    as (_ & _ & q2 & q' & _ & Hq' & Hshown & _);
    try reflexivity.
  - simpl. lia.
  - simpl. tauto.
  - exists q'. split; [exact Hq' | exact Hshown].
Defined.

(** ** The polling timer *)

Lemma timers_addLog cfg m t w :
  timers (utilityModule.addLog cfg m t w) = timers w.
Proof. unfold utilityModule.addLog. by destruct (logsContainer w). Qed.

Lemma fetchIntervalId_addLog cfg m t w :
  fetchIntervalId (utilityModule.addLog cfg m t w) = fetchIntervalId w.
Proof. unfold utilityModule.addLog. by destruct (logsContainer w). Qed.

Lemma start_returns cfg w :
  ∃ w', apiService.start cfg (dashboardEvents cfg) w = Returned w'
    ∧ fetchIntervalId w' = Some (fresh (dom (cleared w)))
    ∧ timers w' = <[fresh (dom (cleared w)) := pollingTimer cfg]> (cleared w).
Proof.
  unfold apiService.start, setInterval, cleared.
  rewrite publish_log. eexists. split; [reflexivity|].
  rewrite fetchIntervalId_addLog, timers_addLog.
  cbn [fetchIntervalId timers set_fetchIntervalId set_timers
       apiService.fetchAllStats_request set_monitoringEnabled
       monitoringEnabled set_pendingFetches clearInterval].
  by destruct (fetchIntervalId w).
Qed.

Lemma stop_returns cfg w :
  ∃ w', apiService.stop (dashboardEvents cfg) w = Returned w'
    ∧ fetchIntervalId w' = fetchIntervalId w
    ∧ timers w' = cleared w.
Proof.
  unfold apiService.stop, cleared.
  rewrite publish_log. eexists. split; [reflexivity|].
  rewrite fetchIntervalId_addLog, timers_addLog.
  destruct (fetchIntervalId w) as [id|] eqn:E; simpl; by rewrite ?E.
Qed.

(** Once the recorded timer is cleared, no polling timer is left. *)
Lemma cleared_no_polling w id t :
  timerTracked w → cleared w !! id = Some t → callback t ≠ FetchAllStats.
Proof.
  intros Htr Hid Hcb. unfold cleared in Hid.
  destruct (fetchIntervalId w) as [old|] eqn:Hold.
  - apply lookup_delete_Some in Hid as [Hne Hid].
    specialize (Htr id t Hid Hcb). congruence.
  - specialize (Htr id t Hid Hcb). congruence.
Qed.

Lemma pollingTimers_armed cfg w w' :
  timerTracked w →
  timers w' = <[fresh (dom (cleared w)) := pollingTimer cfg]> (cleared w) →
  pollingTimers w' = {[ fresh (dom (cleared w)) := pollingTimer cfg ]}.
Proof.
  intros Htr Ht. unfold pollingTimers. rewrite Ht.
  rewrite map_filter_insert_True by done.
  rewrite (map_empty_filter_2 _ (cleared w)); [done|].
  intros id t Hid Hcb. by apply (cleared_no_polling w id t Htr Hid).
Qed.

Lemma timerTracked_armed cfg w w' :
  timerTracked w →
  fetchIntervalId w' = Some (fresh (dom (cleared w))) →
  timers w' = <[fresh (dom (cleared w)) := pollingTimer cfg]> (cleared w) →
  timerTracked w'.
Proof.
  intros Htr Hf Ht id t Hid Hcb. rewrite Ht in Hid. rewrite Hf.
  apply lookup_insert_Some in Hid as [[<- _]|[_ Hid]]; [done|].
  by destruct (cleared_no_polling w id t Htr Hid).
Qed.

(** [start] keeps the timers tracked, and so does [stop]: any sequence of
    the two, in particular toggling monitoring off and on, leaves at most
    the recorded polling timer. *)
Lemma timerTracked_start cfg w :
  timerTracked w →
  timerTracked (outcome_world (apiService.start cfg (dashboardEvents cfg) w)).
Proof.
  intros Htr. destruct (start_returns cfg w) as (w' & -> & Hf & Ht).
  by apply (timerTracked_armed cfg w w').
Qed.

Lemma timerTracked_stop cfg w :
  timerTracked w →
  timerTracked (outcome_world (apiService.stop (dashboardEvents cfg) w)).
Proof.
  intros Htr. destruct (stop_returns cfg w) as (w' & -> & Hf & Ht).
  intros id t Hid Hcb. simpl in Hid. rewrite Ht in Hid.
  by destruct (cleared_no_polling w id t Htr Hid).
Qed.

Lemma timerTracked_page now : timerTracked (page now).
Proof. intros id t Hid. simpl in Hid. by rewrite lookup_empty in Hid. Qed.

Lemma timerTracked_boot cfg now :
  timerTracked (world (outcome_world (boot cfg now))).
Proof.
  intros id t Hid Hcb.
  change (timers (world (outcome_world (boot cfg now))))
    with (<[2%positive := pollingTimer cfg]>
            (<[1%positive := {| callback := UpdateTime; delay := 1000 |}]>
               (∅ : gmap positive Timer)))
    in Hid.
  change (fetchIntervalId (world (outcome_world (boot cfg now))))
    with (Some 2%positive).
  apply lookup_insert_Some in Hid as [[<- _]|[_ Hid]]; [done|].
  apply lookup_insert_Some in Hid as [[_ <-]|[_ Hid]]; [done|].
  by rewrite lookup_empty in Hid.
Qed.

(** Tracked timers never compete: at most one polling timer is active. *)
Lemma timerTracked_at_most_one w :
  timerTracked w → (size (pollingTimers w) ≤ 1)%nat.
Proof.
  intros Htr. destruct (fetchIntervalId w) as [id|] eqn:Hid.
  - destruct (pollingTimers w !! id) as [t|] eqn:Ht.
    + replace (pollingTimers w) with ({[ id := t ]} : gmap positive Timer);
        [rewrite map_size_singleton; lia|].
      apply map_eq. intros j. destruct (decide (j = id)) as [->|Hne].
      * by rewrite lookup_singleton_eq.
      * rewrite lookup_singleton_ne by done. symmetry.
        apply eq_None_not_Some. intros [t' Ht'].
        apply map_lookup_filter_Some in Ht' as [Hj Hcb].
        specialize (Htr j t' Hj Hcb). congruence.
    + replace (pollingTimers w) with (∅ : gmap positive Timer);
        [rewrite map_size_empty; lia|].
      symmetry. apply map_empty. intros j.
      apply eq_None_not_Some. intros [t' Ht'].
      pose proof Ht' as Hf.
      apply map_lookup_filter_Some in Ht' as [Hj Hcb].
      specialize (Htr j t' Hj Hcb).
      assert (j = id) as -> by congruence. congruence.
  - replace (pollingTimers w) with (∅ : gmap positive Timer);
      [rewrite map_size_empty; lia|].
    symmetry. apply map_empty. intros j.
    apply eq_None_not_Some. intros [t' Ht'].
    apply map_lookup_filter_Some in Ht' as [Hj Hcb].
    specialize (Htr j t' Hj Hcb). congruence.
Qed.

(** C9: two calls of [start] in a row leave exactly one polling timer, the
    one recorded in [fetchIntervalId], armed at the configured interval;
    so does each single call. *)
Theorem start_twice_single_timer (cfg : Config) (w : World) :
  timerTracked w →
  let w1 := outcome_world (apiService.start cfg (dashboardEvents cfg) w) in
  let w2 := outcome_world (apiService.start cfg (dashboardEvents cfg) w1) in
  (∃ id, fetchIntervalId w1 = Some id
     ∧ pollingTimers w1 = {[ id := pollingTimer cfg ]})
  ∧ (∃ id, fetchIntervalId w2 = Some id
       ∧ pollingTimers w2 = {[ id := pollingTimer cfg ]})
  ∧ size (pollingTimers w2) = 1%nat.
Proof.
  intros Htr w1 w2.
  pose proof (timerTracked_start cfg w Htr) as Htr1. fold w1 in Htr1.
  assert (∀ v, timerTracked v →
            ∃ id, fetchIntervalId
                    (outcome_world (apiService.start cfg (dashboardEvents cfg) v))
                  = Some id
              ∧ pollingTimers
                  (outcome_world (apiService.start cfg (dashboardEvents cfg) v))
                = {[ id := pollingTimer cfg ]}) as Hone.
  { intros v Hv. destruct (start_returns cfg v) as (v' & -> & Hf & Ht).
    eexists. split; [exact Hf|]. by apply pollingTimers_armed. }
  split; [exact (Hone w Htr)|].
  destruct (Hone w1 Htr1) as (id & Hid & Hp).
  split; [exists id; split; [exact Hid | exact Hp]|].
  fold w2 in Hp. rewrite Hp. apply map_size_singleton.
Qed.

Lemma start_twice_single_timer_witness :
  let w := world (outcome_world (boot config "12:00:00")) in
  let w1 := outcome_world (apiService.start config (dashboardEvents config) w) in
  let w2 := outcome_world (apiService.start config (dashboardEvents config) w1) in
  ∃ id, fetchIntervalId w2 = Some id
    ∧ pollingTimers w2 = {[ id := {| callback := FetchAllStats; delay := 2000 |} ]}.
Proof.
  intros w w1 w2.
  exact (proj1 (proj2 (start_twice_single_timer config w
                         (timerTracked_boot config "12:00:00")))).
Defined.

(** ** Invariants of the running dashboard *)

(** An operation that leaves a component of the world alone leaves what the
    invariant says about it. *)
Ltac frame :=
  repeat match goal with
         | |- context [match ?x with _ => _ end] => destruct x eqn:?
         end;
  simpl in *; try done.

Lemma invariant_frame cfg w w' :
  timers w' = timers w →
  fetchIntervalId w' = fetchIntervalId w →
  elements w' = elements w →
  alertsContainer w' = alertsContainer w →
  charts w' = charts w →
  dashboardInvariant cfg w → dashboardInvariant cfg w'.
Proof.
  intros Ht Hf He Ha Hc [H1 H2 H3 H4 H5]. split.
  - unfold timerTracked. by rewrite Ht, Hf.
  - by rewrite He.
  - unfold queueWithin. by rewrite Ha.
  - by rewrite Hc.
  - by rewrite Hc.
Qed.

Lemma invariant_addLog cfg m t w :
  dashboardInvariant cfg w →
  dashboardInvariant cfg (utilityModule.addLog cfg m t w).
Proof.
  apply invariant_frame; unfold utilityModule.addLog; by destruct (logsContainer w).
Qed.

Lemma invariant_request cfg w :
  dashboardInvariant cfg w →
  dashboardInvariant cfg (apiService.fetchAllStats_request w).
Proof.
  apply invariant_frame; unfold apiService.fetchAllStats_request;
    by destruct (monitoringEnabled w).
Qed.

Lemma invariant_set_pendingFetches cfg n w :
  dashboardInvariant cfg w → dashboardInvariant cfg (set_pendingFetches n w).
Proof. by apply invariant_frame. Qed.

Lemma invariant_set_clock cfg now w :
  dashboardInvariant cfg w → dashboardInvariant cfg (set_clock now w).
Proof. by apply invariant_frame. Qed.

Lemma invariant_set_monitoringEnabled cfg b w :
  dashboardInvariant cfg w → dashboardInvariant cfg (set_monitoringEnabled b w).
Proof. by apply invariant_frame. Qed.

Lemma chartWithin_updateChart cfg now chart v :
  chartWithin cfg chart →
  chartWithin cfg (chartModule.updateChart cfg now chart v).
Proof.
  intros (c & -> & Hlen & Hcap).
  change (chartModule.updateChart cfg now (Some c) v)
    with (appendPoints cfg [(now, v)] (Some c)).
  rewrite (appendPoints_window cfg c [(now, v)] Hlen Hcap).
  eexists. split; [done|]. simpl.
  rewrite !length_lastN, !length_app. simpl. lia.
Qed.

Lemma chartWithin_resetChart cfg chart :
  chartWithin cfg chart → chartWithin cfg (chartModule.resetChart chart).
Proof.
  intros (c & -> & _). eexists. split; [done|]. simpl. lia.
Qed.

Lemma invariant_chart_update cfg st w :
  dashboardInvariant cfg w →
  dashboardInvariant cfg (chartModule.update cfg st w).
Proof.
  intros [H1 H2 H3 H4 H5]. split; try done; simpl;
    by apply chartWithin_updateChart.
Qed.

Lemma invariant_chart_reset cfg w :
  dashboardInvariant cfg w → dashboardInvariant cfg (chartModule.reset w).
Proof.
  intros [H1 H2 H3 H4 H5]. split; try done; simpl;
    by apply chartWithin_resetChart.
Qed.

Lemma invariant_updateServerList cfg st b w :
  dashboardInvariant cfg w →
  dashboardInvariant cfg (statusModule.updateServerList st b w).2.
Proof.
  intros [H1 [l Hl] H3 H4 H5]. unfold statusModule.updateServerList.
  rewrite Hl. by split.
Qed.

Lemma invariant_status_update cfg st ok w :
  dashboardInvariant cfg w →
  dashboardInvariant cfg (statusModule.update st ok w).
Proof.
  intros Hinv. unfold statusModule.update.
  assert (∀ e w0, dashboardInvariant cfg w0 →
            dashboardInvariant cfg
              (statusModule.updateServerList e false
                 (set_elements
                    (statusModule.set_overallStatus
                       {| textContent := "DISCONNECTED";
                          className := "metric-value metric-danger" |}
                       (elements w0)) w0)).2) as Hfail.
  { intros e w0 [H1 H2 H3 H4 H5]. apply invariant_updateServerList.
    by split. }
  destruct ok; [|by apply Hfail]. destruct st as [s|]; [|by apply Hfail].
  pose proof (invariant_updateServerList cfg (Some s) true w Hinv) as Hw1.
  destruct (statusModule.updateServerList (Some s) true w) as [states w1].
  simpl in Hw1. destruct Hw1 as [H1 H2 H3 H4 H5]. by split.
Qed.

Lemma invariant_addAlert cfg t m w :
  dashboardInvariant cfg w →
  dashboardInvariant cfg (alertModule.addAlert cfg t m w).
Proof.
  intros [H1 H2 (q & Hq & Hlen) H4 H5]. unfold alertModule.addAlert.
  rewrite Hq. destruct (existsb _ _); [split; try done; by exists q|].
  split; try done. eexists. split; [done|].
  destruct (Nat.ltb_spec (maxAlerts cfg) (length (alertModule.newAlert t m :: q)))
    as [Hlt|Hge]; [|done].
  rewrite removelast_firstn_len, length_take. simpl in *. lia.
Qed.

Lemma invariant_checkAlerts cfg st w :
  dashboardInvariant cfg w →
  dashboardInvariant cfg (alertModule.checkAlerts cfg st w).
Proof.
  intros Hinv. unfold alertModule.checkAlerts.
  destruct (st ≫= load_balancer) as [lb|]; [|done].
  fold (afterThresholdRules cfg lb w).
  assert (dashboardInvariant cfg (afterThresholdRules cfg lb w)) as H2.
  { unfold afterThresholdRules.
    destruct (success_rate lb) as [sr|], (avg_response_time_ms lb) as [rt|];
      repeat match goal with
             | |- context [if ?b then _ else _] => destruct b
             end;
      auto using invariant_addAlert. }
  pose proof (invariant_updateServerList cfg st true _ H2) as H3.
  destruct (statusModule.updateServerList st true _) as [states w3].
  simpl in H3. destruct (_ <? _)%nat; [by apply invariant_addAlert | done].
Qed.

Lemma invariant_start cfg w :
  dashboardInvariant cfg w →
  dashboardInvariant cfg
    (outcome_world (apiService.start cfg (dashboardEvents cfg) w)).
Proof.
  intros Hinv. pose proof (timerTracked_start cfg w (inv_timers _ _ Hinv)) as Htr.
  destruct Hinv as [H1 H2 H3 H4 H5].
  revert Htr. unfold apiService.start, setInterval. rewrite publish_log.
  unfold outcome_world. intros Htr. split; [exact Htr|..];
    rewrite ?elements_addLog; unfold queueWithin;
    rewrite ?alertsContainer_addLog;
    unfold utilityModule.addLog; frame.
Qed.

Lemma invariant_stop cfg w :
  dashboardInvariant cfg w →
  dashboardInvariant cfg (outcome_world (apiService.stop (dashboardEvents cfg) w)).
Proof.
  intros Hinv. pose proof (timerTracked_stop cfg w (inv_timers _ _ Hinv)) as Htr.
  destruct Hinv as [H1 H2 H3 H4 H5].
  revert Htr. unfold apiService.stop. rewrite publish_log.
  unfold outcome_world. intros Htr. split; [exact Htr|..];
    rewrite ?elements_addLog; unfold queueWithin;
    rewrite ?alertsContainer_addLog;
    unfold utilityModule.addLog; frame.
Qed.

Lemma invariant_toggleMonitoring cfg w :
  dashboardInvariant cfg w →
  dashboardInvariant cfg
    (outcome_world (controlsModule.toggleMonitoring cfg (dashboardEvents cfg) w)).
Proof.
  intros Hinv. unfold controlsModule.toggleMonitoring.
  destruct (monitoringEnabled (set_monitoringEnabled _ w)).
  - by apply invariant_start, invariant_set_monitoringEnabled.
  - by apply invariant_stop, invariant_set_monitoringEnabled.
Qed.

Lemma invariant_refresh cfg w :
  dashboardInvariant cfg w →
  dashboardInvariant cfg
    (outcome_world (controlsModule.refresh (dashboardEvents cfg) w)).
Proof.
  intros Hinv. unfold controlsModule.refresh. rewrite publish_log. simpl.
  by apply invariant_request, invariant_addLog.
Qed.

Lemma publish_reset cfg w :
  publish (dashboardEvents cfg) "reset" None w = Returned (chartModule.reset w).
Proof. unfold publish. rewrite dashboardEvents_reset. reflexivity. Qed.

Lemma invariant_reset cfg w :
  dashboardInvariant cfg w →
  dashboardInvariant cfg
    (outcome_world (controlsModule.reset (dashboardEvents cfg) w)).
Proof.
  intros Hinv. unfold controlsModule.reset.
  rewrite publish_log. cbn [andThen]. rewrite publish_log. cbn [andThen].
  rewrite publish_reset. cbn [andThen outcome_world].
  by apply invariant_request, invariant_chart_reset, invariant_addLog,
    invariant_addLog.
Qed.

Lemma invariant_settle cfg r w :
  dashboardInvariant cfg w →
  dashboardInvariant cfg
    (outcome_world (apiService.fetchAllStats_settle (dashboardEvents cfg) r w)).
Proof.
  intros Hinv. destruct (isFailure r) eqn:Hr.
  - destruct (settle_failure cfg r w Hr) as [e ->]. cbn [outcome_world].
    by apply invariant_addLog, invariant_status_update,
      invariant_set_pendingFetches.
  - destruct r as [e|[] [e|st]]; try discriminate Hr.
    rewrite settle_success. cbn [outcome_world].
    by apply invariant_checkAlerts, invariant_status_update,
      invariant_chart_update, invariant_set_pendingFetches.
Qed.

Lemma invariant_act cfg w a :
  dashboardInvariant cfg w → dashboardInvariant cfg (act cfg w a).
Proof.
  intros Hinv. destruct a as [| | |id|r|now]; cbn [act].
  - by apply invariant_toggleMonitoring.
  - by apply invariant_refresh.
  - by apply invariant_reset.
  - destruct (callback <$> timers w !! id) as [[]|]; [|done..].
    by apply invariant_request.
  - destruct (pendingFetches w); [done|]. by apply invariant_settle.
  - by apply invariant_set_clock.
Qed.

Lemma invariant_boot cfg now :
  dashboardInvariant cfg (world (outcome_world (boot cfg now))).
Proof.
  split.
  - apply timerTracked_boot.
  - by exists [].
  - exists []. split; [done|]. simpl. lia.
  - exists chartModule.newChart. split; [done|]. simpl. split; [done|lia].
  - exists chartModule.newChart. split; [done|]. simpl. split; [done|lia].
Qed.

(** Every state the dashboard reaches satisfies the invariant: the polling
    timer is tracked, the list and alert elements are there, the alert queue
    and both chart series are within their bounds. *)
Lemma invariant_run cfg now (actions : list Action) :
  dashboardInvariant cfg (run cfg now actions).
Proof.
  unfold run. induction actions as [|a actions IH] using rev_ind.
  - apply invariant_boot.
  - rewrite foldl_app. cbn [foldl]. by apply invariant_act.
Qed.

(** However monitoring is toggled, refreshed or reset, and whatever the
    requests answer, the dashboard never has two polling timers, and its
    alert queue never exceeds [maxAlerts]. *)
Corollary run_bounds cfg now (actions : list Action) :
  (size (pollingTimers (run cfg now actions)) ≤ 1)%nat
  ∧ ∃ q, alertsContainer (run cfg now actions) = Some q
      ∧ (length q ≤ maxAlerts cfg)%nat.
Proof.
  destruct (invariant_run cfg now actions) as [H1 _ H3 _ _].
  split; [by apply timerTracked_at_most_one | exact H3].
Qed.

(** * Further properties *)

(** ** Subscribing and publishing *)

(** X1: a new subscriber runs last. For event names that are not members
    of [Object.prototype] (on those the table, a plain object, yields an
    inherited member and the script throws), publishing on the name
    subscribed to is publishing to the earlier subscribers and then, unless
    one of them threw, calling the new one on the state they left;
    publishing on any other such name is as before. *)
Theorem publish_subscribe {W D : Type} (ev : Events W D)
    (eventName other : string) (cb : Callback W D) (data : D) (w : W) :
  eventName ∉ Js.objectPrototypeNames →
  other ∉ Js.objectPrototypeNames →
  publish (subscribe eventName cb ev) eventName data w
  = andThen (publish ev eventName data w) (cb data)
  ∧ (eventName ≠ other →
     publish (subscribe eventName cb ev) other data w = publish ev other data w).
Proof.
  intros _ _. split.
  - unfold publish. rewrite lookup_subscribe_eq.
    destruct (ev !! eventName) as [l|]; simpl.
    + rewrite forEach_app. destruct (forEach l data w); simpl; [|done].
      by destruct (cb data _).
    + by destruct (cb data w).
  - intros Hne. unfold publish. by rewrite lookup_subscribe_ne.
Qed.

Lemma publish_subscribe_witness :
  publish (subscribe "topic" BusExample.first BusExample.events) "other" () []
  = publish BusExample.events "other" () [].
Proof.
  apply (publish_subscribe BusExample.events "topic" "other"
           BusExample.first () []).
  - intros H. apply list_elem_of_In in H. simpl in H.
    repeat (destruct H as [H|H]; [discriminate H|]). exact H.
  - intros H. apply list_elem_of_In in H. simpl in H.
    repeat (destruct H as [H|H]; [discriminate H|]). exact H.
  - discriminate.
Defined.

(** ** The uptime display *)

Lemma length_append (a b : string) :
  String.length (a +:+ b) = (String.length a + String.length b)%nat.
Proof. induction a as [|c a IH]; simpl; [done|by rewrite IH]. Qed.

Lemma padStart2_two_digits (z : Z) :
  0 ≤ z < 100 → String.length (padStart2 (pretty z)) = 2%nat.
Proof.
  intros Hz.
  assert (forallb
            (λ k, Nat.eqb (String.length (padStart2 (pretty (Z.of_nat k)))) 2)
            (seq 0 100) = true) as Hall by (vm_compute; reflexivity).
  rewrite forallb_forall in Hall.
  specialize (Hall (Z.to_nat z)). rewrite Z2Nat.id in Hall by lia.
  apply Nat.eqb_eq, Hall, in_seq. lia.
Qed.

(** X2: for a script that started in the past, [updateTime] shows hours,
    minutes and seconds that add up to the whole seconds elapsed, with
    minutes and seconds below 60 and written with two digits; below a
    hundred hours the text is ["Uptime: hh:mm:ss"], 16 characters long. *)
Theorem uptime_is_hh_mm_ss (uptime : Z) :
  0 ≤ uptime →
  0 ≤ uptimeHours uptime
  ∧ 0 ≤ uptimeMinutes uptime < 60
  ∧ 0 ≤ uptimeSeconds uptime < 60
  ∧ 3600 * uptimeHours uptime + 60 * uptimeMinutes uptime + uptimeSeconds uptime
    = uptime / 1000
  ∧ String.length (padStart2 (pretty (uptimeMinutes uptime))) = 2%nat
  ∧ String.length (padStart2 (pretty (uptimeSeconds uptime))) = 2%nat
  ∧ (uptime < 360000000 → String.length (uptimeText uptime) = 16%nat).
Proof.
  intros Hpos. unfold uptimeText, uptimeHours, uptimeMinutes, uptimeSeconds.
  rewrite !Z.rem_mod_nonneg by lia.
  assert (0 ≤ uptime / 3600000) as Hh by (apply Z.div_pos; lia).
  assert (0 ≤ uptime `mod` 3600000 / 60000 < 60) as Hm
    by (Z.div_mod_to_equations; lia).
  assert (0 ≤ uptime `mod` 60000 / 1000 < 60) as Hs
    by (Z.div_mod_to_equations; lia).
  split; [exact Hh|]. split; [exact Hm|]. split; [exact Hs|].
  split; [Z.div_mod_to_equations; lia|].
  split; [apply padStart2_two_digits; lia|].
  split; [apply padStart2_two_digits; lia|].
  intros Hsmall. rewrite !length_append.
  rewrite !padStart2_two_digits by (try lia; Z.div_mod_to_equations; lia).
  reflexivity.
Qed.

Lemma uptime_is_hh_mm_ss_witness :
  uptimeText 3723004 = "Uptime: 01:02:03"
  ∧ 3600 * uptimeHours 3723004 + 60 * uptimeMinutes 3723004
    + uptimeSeconds 3723004 = 3723.
Proof.
  pose proof (uptime_is_hh_mm_ss 3723004) as H.
  destruct H as (_ & _ & _ & Hsum & _); [lia|].
  split; [vm_compute; reflexivity | exact Hsum].
Defined.

(** ** Starting, stopping and the timers *)

Lemma start_world cfg w :
  apiService.start cfg (dashboardEvents cfg) w
  = Returned
      (utilityModule.addLog cfg (Some "Monitoring started.") None
         (set_fetchIntervalId (Some (fresh (dom (cleared w))))
            (set_timers
               (<[fresh (dom (cleared w)) := pollingTimer cfg]> (cleared w))
               (set_pendingFetches (S (pendingFetches w))
                  (set_monitoringEnabled true w))))).
Proof.
  unfold apiService.start, setInterval, cleared. rewrite publish_log.
  destruct w as [? ? [id|] ? ? ? ? ? ?]; reflexivity.
Qed.

Lemma stop_world cfg w :
  apiService.stop (dashboardEvents cfg) w
  = Returned
      (utilityModule.addLog cfg (Some "Monitoring paused.") None
         (set_timers (cleared w) (set_monitoringEnabled false w))).
Proof.
  unfold apiService.stop, cleared. rewrite publish_log.
  destruct w as [? ? [id|] ? ? ? ? ? ?]; reflexivity.
Qed.

Lemma samePolling_refl w : samePolling w w.
Proof. by repeat split. Qed.

Lemma samePolling_trans w1 w2 w3 :
  samePolling w1 w2 → samePolling w2 w3 → samePolling w1 w3.
Proof.
  intros (H1 & H2 & H3) (H4 & H5 & H6). repeat split; congruence.
Qed.

Lemma samePolling_addLog cfg m t w :
  samePolling w (utilityModule.addLog cfg m t w).
Proof. unfold utilityModule.addLog. by destruct (logsContainer w). Qed.

Lemma samePolling_request w :
  samePolling w (apiService.fetchAllStats_request w).
Proof.
  unfold apiService.fetchAllStats_request. by destruct (monitoringEnabled w).
Qed.

Lemma samePolling_chart_update cfg st w :
  samePolling w (chartModule.update cfg st w).
Proof. done. Qed.

Lemma samePolling_chart_reset w : samePolling w (chartModule.reset w).
Proof. done. Qed.

Lemma samePolling_status_update st ok w :
  samePolling w (statusModule.update st ok w).
Proof.
  unfold statusModule.update, statusModule.updateServerList.
  destruct ok, st; simpl; by destruct (serverList (elements w)).
Qed.

Lemma samePolling_addAlert cfg t m w :
  samePolling w (alertModule.addAlert cfg t m w).
Proof.
  unfold alertModule.addAlert. destruct (alertsContainer w); [|done].
  by destruct (existsb _ _).
Qed.

Lemma samePolling_updateServerList st b w :
  samePolling w (statusModule.updateServerList st b w).2.
Proof.
  unfold statusModule.updateServerList. by destruct (serverList (elements w)).
Qed.

Lemma samePolling_checkAlerts cfg st w :
  samePolling w (alertModule.checkAlerts cfg st w).
Proof.
  unfold alertModule.checkAlerts.
  destruct (st ≫= load_balancer) as [lb|]; [|apply samePolling_refl].
  fold (afterThresholdRules cfg lb w).
  assert (samePolling w (afterThresholdRules cfg lb w)) as H2.
  { unfold afterThresholdRules.
    destruct (success_rate lb) as [sr|], (avg_response_time_ms lb) as [rt|];
      repeat match goal with
             | |- context [if ?b then _ else _] => destruct b
             end;
      eauto using samePolling_refl, samePolling_trans, samePolling_addAlert. }
  pose proof (samePolling_updateServerList st true
                (afterThresholdRules cfg lb w)) as H3.
  destruct (statusModule.updateServerList st true _) as [states w3].
  simpl in H3. destruct (_ <? _)%nat;
    eauto using samePolling_trans, samePolling_addAlert.
Qed.

Lemma samePolling_settle cfg r w :
  samePolling w
    (outcome_world (apiService.fetchAllStats_settle (dashboardEvents cfg) r w)).
Proof.
  destruct (isFailure r) eqn:Hr.
  - destruct (settle_failure cfg r w Hr) as [e ->]. cbn [outcome_world].
    eapply samePolling_trans; [|apply samePolling_addLog].
    eapply samePolling_trans; [|apply samePolling_status_update]. done.
  - destruct r as [e|[] [e|st]]; try discriminate Hr.
    rewrite settle_success. cbn [outcome_world].
    eapply samePolling_trans; [|apply samePolling_checkAlerts].
    eapply samePolling_trans; [|apply samePolling_status_update].
    eapply samePolling_trans; [|apply samePolling_chart_update]. done.
Qed.

Lemma refresh_world cfg w :
  controlsModule.refresh (dashboardEvents cfg) w
  = Returned
      (apiService.fetchAllStats_request
         (utilityModule.addLog cfg (Some "Manual refresh triggered.") None w)).
Proof. unfold controlsModule.refresh. by rewrite publish_log. Qed.

Lemma reset_world cfg w :
  controlsModule.reset (dashboardEvents cfg) w
  = Returned
      (apiService.fetchAllStats_request
         (chartModule.reset
            (utilityModule.addLog cfg (Some "Statistics have been reset.") None
               (utilityModule.addLog cfg (Some "Resetting statistics...") None
                  w)))).
Proof.
  unfold controlsModule.reset.
  rewrite publish_log. cbn [andThen]. rewrite publish_log. cbn [andThen].
  rewrite publish_reset. reflexivity.
Qed.

Lemma samePolling_refresh cfg w :
  samePolling w
    (outcome_world (controlsModule.refresh (dashboardEvents cfg) w)).
Proof.
  rewrite refresh_world. cbn [outcome_world].
  eapply samePolling_trans; [apply samePolling_addLog|apply samePolling_request].
Qed.

Lemma samePolling_reset cfg w :
  samePolling w (outcome_world (controlsModule.reset (dashboardEvents cfg) w)).
Proof.
  rewrite reset_world. cbn [outcome_world].
  eapply samePolling_trans; [|apply samePolling_request].
  eapply samePolling_trans; [|apply samePolling_chart_reset].
  eapply samePolling_trans; apply samePolling_addLog.
Qed.

Lemma pollingInvariant_same w w' :
  samePolling w w' → pollingInvariant w → pollingInvariant w'.
Proof.
  intros (Ht & Hf & Hm) [H1 H2 H3 H4]. split.
  - unfold timerTracked. by rewrite Ht, Hf.
  - unfold handleOwned. by rewrite Ht, Hf.
  - unfold pollingTimers. by rewrite Ht, Hm.
  - by rewrite Ht.
Qed.

(** The clock timer is not the one [clearInterval] removes. *)
Lemma cleared_keeps_clock w id :
  handleOwned w → timers w !! id = Some clockTimer →
  cleared w !! id = Some clockTimer.
Proof.
  intros Hown Hid. unfold cleared.
  destruct (fetchIntervalId w) as [old|] eqn:Hold; [|done].
  rewrite lookup_delete_ne; [done|]. intros ->.
  by specialize (Hown id clockTimer Hold Hid).
Qed.

Lemma pollingTimers_cleared w :
  timerTracked w →
  filter (λ kv, callback kv.2 = FetchAllStats) (cleared w)
  = (∅ : gmap positive Timer).
Proof.
  intros Htr. apply map_empty_filter_2. intros id t Hid Hcb.
  by apply (cleared_no_polling w id t Htr Hid).
Qed.

Lemma pollingInvariant_start cfg w :
  timerTracked w → handleOwned w → (∃ id, timers w !! id = Some clockTimer) →
  pollingInvariant (outcome_world (apiService.start cfg (dashboardEvents cfg) w)).
Proof.
  intros Htr Hown [cid Hcid].
  pose proof (timerTracked_start cfg w Htr) as Htr'.
  destruct (start_returns cfg w) as (w' & Hw' & Hf & Ht).
  assert (monitoringEnabled w' = true) as Hm.
  { rewrite start_world in Hw'. injection Hw' as <-.
    unfold utilityModule.addLog. by destruct (logsContainer _). }
  rewrite Hw' in *. cbn [outcome_world] in *. split.
  - exact Htr'.
  - intros id t Hid Hlook. rewrite Hf in Hid. injection Hid as <-.
    rewrite Ht, lookup_insert_eq in Hlook. by injection Hlook as <-.
  - rewrite (pollingTimers_armed cfg w w' Htr Ht), Hm. apply map_size_singleton.
  - exists cid. rewrite Ht.
    pose proof (cleared_keeps_clock w cid Hown Hcid) as Hc.
    rewrite lookup_insert_ne; [done|]. intros Heq.
    pose proof (is_fresh (dom (cleared w))) as Hfresh.
    apply Hfresh. rewrite Heq. apply elem_of_dom. by eexists.
Qed.

Lemma pollingInvariant_stop cfg w :
  timerTracked w → handleOwned w → (∃ id, timers w !! id = Some clockTimer) →
  pollingInvariant (outcome_world (apiService.stop (dashboardEvents cfg) w)).
Proof.
  intros Htr Hown [cid Hcid].
  pose proof (timerTracked_stop cfg w Htr) as Htr'.
  destruct (stop_returns cfg w) as (w' & Hw' & Hf & Ht).
  assert (monitoringEnabled w' = false) as Hm.
  { rewrite stop_world in Hw'. injection Hw' as <-.
    unfold utilityModule.addLog. by destruct (logsContainer _). }
  rewrite Hw' in *. cbn [outcome_world] in *. split.
  - exact Htr'.
  - intros id t Hid Hlook. rewrite Hf in Hid. rewrite Ht in Hlook.
    unfold cleared in Hlook. rewrite Hid in Hlook.
    by rewrite lookup_delete_eq in Hlook.
  - unfold pollingTimers. rewrite Ht, (pollingTimers_cleared w Htr), Hm.
    apply map_size_empty.
  - exists cid. rewrite Ht. by apply cleared_keeps_clock.
Qed.

Lemma pollingInvariant_toggle cfg w :
  pollingInvariant w →
  pollingInvariant
    (outcome_world (controlsModule.toggleMonitoring cfg (dashboardEvents cfg) w)).
Proof.
  intros [H1 H2 _ H4]. unfold controlsModule.toggleMonitoring.
  destruct (monitoringEnabled (set_monitoringEnabled _ w));
    [by apply pollingInvariant_start | by apply pollingInvariant_stop].
Qed.

Lemma pollingInvariant_act cfg w a :
  pollingInvariant w → pollingInvariant (act cfg w a).
Proof.
  intros Hinv. destruct a as [| | |id|r|now]; cbn [act].
  - by apply pollingInvariant_toggle.
  - eapply pollingInvariant_same; [apply samePolling_refresh|done].
  - eapply pollingInvariant_same; [apply samePolling_reset|done].
  - destruct (callback <$> timers w !! id) as [[]|]; [|done..].
    eapply pollingInvariant_same; [apply samePolling_request|done].
  - destruct (pendingFetches w); [done|].
    eapply pollingInvariant_same; [apply samePolling_settle|done].
  - by eapply pollingInvariant_same; [|exact Hinv].
Qed.

Lemma pollingInvariant_boot cfg now :
  pollingInvariant (world (outcome_world (boot cfg now))).
Proof.
  split.
  - apply timerTracked_boot.
  - intros id t Hid Hlook.
    change (fetchIntervalId (world (outcome_world (boot cfg now))))
      with (Some 2%positive) in Hid. injection Hid as <-.
    change (timers (world (outcome_world (boot cfg now))))
      with (<[2%positive := pollingTimer cfg]>
              (<[1%positive := clockTimer]> (∅ : gmap positive Timer)))
      in Hlook.
    rewrite lookup_insert_eq in Hlook. by injection Hlook as <-.
  - change (monitoringEnabled (world (outcome_world (boot cfg now)))) with true.
    unfold pollingTimers.
    change (timers (world (outcome_world (boot cfg now))))
      with (<[2%positive := pollingTimer cfg]>
              (<[1%positive := clockTimer]> (∅ : gmap positive Timer))).
    rewrite map_filter_insert_True by done.
    rewrite map_filter_insert_False by done.
    rewrite delete_empty, map_filter_empty, insert_empty.
    apply map_size_singleton.
  - exists 1%positive. reflexivity.
Qed.

Lemma pollingInvariant_run cfg now (actions : list Action) :
  pollingInvariant (run cfg now actions).
Proof.
  unfold run. induction actions as [|a actions IH] using rev_ind.
  - apply pollingInvariant_boot.
  - rewrite foldl_app. cbn [foldl]. by apply pollingInvariant_act.
Qed.

(** X3: [stop] turns monitoring off, leaves no polling timer and sends no
    request; the requests in flight stay pending, and a later
    [fetchAllStats] (a manual refresh, say) returns at once. *)
Theorem stop_pauses_polling (cfg : Config) (w : World) :
  timerTracked w →
  ∃ w', apiService.stop (dashboardEvents cfg) w = Returned w'
    ∧ monitoringEnabled w' = false
    ∧ pollingTimers w' = ∅
    ∧ pendingFetches w' = pendingFetches w
    ∧ apiService.fetchAllStats_request w' = w'.
Proof.
  intros Htr. rewrite stop_world. eexists. split; [reflexivity|].
  assert (∀ v, monitoringEnabled v = false →
            monitoringEnabled
              (utilityModule.addLog cfg (Some "Monitoring paused.") None v)
            = false) as Hm.
  { intros v Hv. unfold utilityModule.addLog. by destruct (logsContainer v). }
  split; [by apply Hm|]. split.
  - unfold pollingTimers. rewrite timers_addLog. cbn [timers set_timers].
    by apply pollingTimers_cleared.
  - split.
    + unfold utilityModule.addLog. by destruct (logsContainer _).
    + unfold apiService.fetchAllStats_request. by rewrite Hm.
Qed.

Lemma stop_pauses_polling_witness :
  ∃ w', apiService.stop (dashboardEvents config)
          (world (outcome_world (boot config "12:00:00"))) = Returned w'
    ∧ monitoringEnabled w' = false
    ∧ pollingTimers w' = ∅
    ∧ pendingFetches w' = 1%nat
    ∧ apiService.fetchAllStats_request w' = w'.
Proof.
  exact (stop_pauses_polling config
           (world (outcome_world (boot config "12:00:00")))
           (timerTracked_boot config "12:00:00")).
Defined.

(** X4: in every state the dashboard reaches, the polling timer is active
    exactly while monitoring is enabled: one polling timer when the flag is
    set, none when it is not. *)
Theorem polling_follows_flag (cfg : Config) (now : string)
    (actions : list Action) :
  size (pollingTimers (run cfg now actions))
  = if monitoringEnabled (run cfg now actions) then 1%nat else 0%nat.
Proof. apply (pol_agree _ (pollingInvariant_run cfg now actions)). Qed.

(** X5: no action of the dashboard cancels the clock timer: in every state
    it reaches, the [updateTime] timer of [utilityModule.init] is active at
    its 1000 ms; [start] and [stop] only ever clear polling timers. *)
Theorem clock_timer_survives (cfg : Config) (now : string)
    (actions : list Action) :
  ∃ id, timers (run cfg now actions) !! id = Some clockTimer.
Proof. apply (pol_clock _ (pollingInvariant_run cfg now actions)). Qed.

(** ** Frames *)

(** What an operation leaves alone: a component [f] of the world that none
    of the operation's setters touches is the same afterwards. *)
Section Frames.

Context {A : Type} (f : World → A).

Lemma addLog_frame cfg m t w :
  (∀ l v, f (set_logsContainer l v) = f v) →
  f (utilityModule.addLog cfg m t w) = f w.
Proof.
  intros H. unfold utilityModule.addLog. by destruct (logsContainer w).
Qed.

Lemma addAlert_frame cfg t m w :
  (∀ a v, f (set_alertsContainer a v) = f v) →
  f (alertModule.addAlert cfg t m w) = f w.
Proof.
  intros H. unfold alertModule.addAlert. destruct (alertsContainer w); [|done].
  by destruct (existsb _ _).
Qed.

Lemma updateServerList_frame st b w :
  (∀ e v, f (set_elements e v) = f v) →
  f (statusModule.updateServerList st b w).2 = f w.
Proof.
  intros H. unfold statusModule.updateServerList.
  destruct (serverList (elements w)); simpl; by rewrite ?H.
Qed.

Lemma status_update_frame st ok w :
  (∀ e v, f (set_elements e v) = f v) →
  f (statusModule.update st ok w) = f w.
Proof.
  intros H. unfold statusModule.update.
  destruct ok, st as [s|];
    try (cbn [snd]; by rewrite updateServerList_frame, H).
  pose proof (updateServerList_frame (Some s) true w H) as H1.
  destruct (statusModule.updateServerList (Some s) true w) as [states w1].
  simpl in H1. by rewrite H.
Qed.

Lemma afterThresholdRules_frame cfg lb w :
  (∀ a v, f (set_alertsContainer a v) = f v) →
  f (afterThresholdRules cfg lb w) = f w.
Proof.
  intros H. unfold afterThresholdRules.
  destruct (success_rate lb) as [sr|], (avg_response_time_ms lb) as [rt|];
    repeat match goal with
           | |- context [if ?b then _ else _] => destruct b
           end;
    by rewrite ?addAlert_frame.
Qed.

Lemma checkAlerts_frame cfg st w :
  (∀ a v, f (set_alertsContainer a v) = f v) →
  (∀ e v, f (set_elements e v) = f v) →
  f (alertModule.checkAlerts cfg st w) = f w.
Proof.
  intros Ha He. unfold alertModule.checkAlerts.
  destruct (st ≫= load_balancer) as [lb|]; [|done].
  fold (afterThresholdRules cfg lb w).
  pose proof (updateServerList_frame st true (afterThresholdRules cfg lb w) He)
    as H3.
  destruct (statusModule.updateServerList st true _) as [states w3].
  simpl in H3.
  destruct (_ <? _)%nat;
    by rewrite ?addAlert_frame, H3, afterThresholdRules_frame.
Qed.

Lemma request_frame w :
  (∀ n v, f (set_pendingFetches n v) = f v) →
  f (apiService.fetchAllStats_request w) = f w.
Proof.
  intros H. unfold apiService.fetchAllStats_request.
  by destruct (monitoringEnabled w).
Qed.

End Frames.

(** ** The log *)

(** Inserting at the head and dropping the last element when the bound is
    exceeded keeps the first [n] elements. *)
Lemma head_insert_take {A : Type} (n : nat) (e : A) (l : list A) :
  (length l ≤ n)%nat →
  (if (n <? length (e :: l))%nat then removelast (e :: l) else e :: l)
  = take n (e :: l).
Proof.
  intros Hlen. destruct (Nat.ltb_spec n (length (e :: l))) as [Hlt|Hge].
  - rewrite removelast_firstn_len. f_equal. simpl in *. lia.
  - symmetry. apply take_ge. lia.
Qed.

Lemma addLog_logs cfg m t w l :
  logsContainer w = Some l →
  (length l ≤ maxLogEntries cfg)%nat →
  logsContainer (utilityModule.addLog cfg m t w)
  = Some (take (maxLogEntries cfg) (logEntryOf (clock w) (m, t) :: l)).
Proof.
  intros Hl Hlen. unfold utilityModule.addLog. rewrite Hl.
  cbn [logsContainer set_logsContainer]. f_equal.
  by apply (head_insert_take (maxLogEntries cfg)).
Qed.

Lemma addLogs_snoc cfg ms m w :
  addLogs cfg (ms ++ [m]) w
  = utilityModule.addLog cfg m.1 m.2 (addLogs cfg ms w).
Proof. unfold addLogs. by rewrite foldl_app. Qed.

Lemma clock_addLogs cfg ms w : clock (addLogs cfg ms w) = clock w.
Proof.
  induction ms as [|m ms IH] using rev_ind; [done|].
  rewrite addLogs_snoc, addLog_frame; done.
Qed.

(** X6: the log is a bounded list, newest entry first. After any run of
    [addLog] calls on a log within its bound, the log holds the new entries
    in reverse order of arrival in front of the old ones, cut after
    [maxLogEntries]: the oldest entries are the ones dropped. *)
Theorem log_keeps_newest (cfg : Config)
    (ms : list (option string * option string)) (w : World)
    (l : list LogEntry) :
  logsContainer w = Some l →
  (length l ≤ maxLogEntries cfg)%nat →
  logsContainer (addLogs cfg ms w)
  = Some (take (maxLogEntries cfg)
            (reverse (logEntryOf (clock w) <$> ms) ++ l)).
Proof.
  intros Hl Hlen. induction ms as [|m ms IH] using rev_ind.
  - simpl. by rewrite take_ge.
  - rewrite addLogs_snoc.
    rewrite (addLog_logs cfg m.1 m.2 _ _ IH)
      by (rewrite length_take; lia).
    rewrite clock_addLogs, fmap_app, reverse_app. simpl.
    f_equal. destruct m as [m t]. simpl.
    destruct (maxLogEntries cfg) as [|n]; [done|].
    simpl. f_equal. rewrite take_take. f_equal. lia.
Qed.

Lemma log_keeps_newest_witness :
  let cfg := {| apiEndpoint := ""; refreshInterval := 2000;
                maxChartPoints := 30; maxLogEntries := 2; maxAlerts := 5 |} in
  logsContainer
    (addLogs cfg [(Some "a", None); (Some "b", Some "error"); (Some "c", None)]
       (page "t"))
  = Some [ {| log_text := "[t] c"; log_color := "#ecf0f1" |};
           {| log_text := "[t] b"; log_color := "#f87171" |} ].
Proof.
  intros cfg.
  rewrite (log_keeps_newest cfg
             [(Some "a", None); (Some "b", Some "error"); (Some "c", None)]
             (page "t") []).
  - reflexivity.
  - reflexivity.
  - simpl. lia.
Defined.

Lemma logsWithin_same cfg w w' :
  logsContainer w' = logsContainer w → logsWithin cfg w → logsWithin cfg w'.
Proof. intros H. unfold logsWithin. by rewrite H. Qed.

Lemma logsWithin_addLog cfg m t w :
  logsWithin cfg w → logsWithin cfg (utilityModule.addLog cfg m t w).
Proof.
  intros (l & Hl & Hlen). eexists. split; [by apply addLog_logs|].
  rewrite length_take. lia.
Qed.

Lemma logsWithin_act cfg w a :
  logsWithin cfg w → logsWithin cfg (act cfg w a).
Proof.
  intros Hinv. destruct a as [| | |id|r|now]; cbn [act].
  - unfold controlsModule.toggleMonitoring.
    destruct (monitoringEnabled (set_monitoringEnabled _ w)).
    + rewrite start_world. cbn [outcome_world].
      apply logsWithin_addLog. by eapply logsWithin_same; [|exact Hinv].
    + rewrite stop_world. cbn [outcome_world].
      apply logsWithin_addLog. by eapply logsWithin_same; [|exact Hinv].
  - rewrite refresh_world. cbn [outcome_world].
    eapply logsWithin_same; [by apply request_frame|].
    by apply logsWithin_addLog.
  - rewrite reset_world. cbn [outcome_world].
    eapply logsWithin_same; [by apply request_frame|].
    eapply (logsWithin_same _ _ (chartModule.reset _)); [done|].
    by do 2 apply logsWithin_addLog.
  - destruct (callback <$> timers w !! id) as [[]|]; [|done..].
    eapply logsWithin_same; [by apply request_frame|done].
  - destruct (pendingFetches w); [done|]. destruct (isFailure r) eqn:Hr.
    + destruct (settle_failure cfg r w Hr) as [e ->]. cbn [outcome_world].
      apply logsWithin_addLog.
      eapply logsWithin_same; [by apply status_update_frame|].
      by eapply logsWithin_same; [|exact Hinv].
    + destruct r as [e|[] [e|st]]; try discriminate Hr.
      rewrite settle_success. cbn [outcome_world].
      eapply logsWithin_same; [by apply checkAlerts_frame|].
      eapply logsWithin_same; [by apply status_update_frame|].
      by eapply logsWithin_same; [|exact Hinv].
  - by eapply logsWithin_same; [|exact Hinv].
Qed.

(** [main], seen from its last two statements. *)
Lemma boot_world cfg now :
  world (outcome_world (boot cfg now))
  = outcome_world
      (apiService.start cfg (dashboardEvents cfg)
         (utilityModule.addLog cfg (Some "Monitoring dashboard initialized.")
            None
            (setInterval UpdateTime 1000
               (outcome_world
                  (statusModule.setInitialState
                     (chartModule.init_charts (page now))))).2)).
Proof. vm_compute. reflexivity. Qed.

Lemma logsWithin_boot cfg now :
  logsWithin cfg (world (outcome_world (boot cfg now))).
Proof.
  rewrite boot_world, start_world. cbn [outcome_world].
  apply logsWithin_addLog.
  eapply (logsWithin_same _
            (utilityModule.addLog cfg
               (Some "Monitoring dashboard initialized.") None _));
    [done|].
  apply logsWithin_addLog. exists []. split; [reflexivity|]. simpl. lia.
Qed.

Lemma logsWithin_run cfg now (actions : list Action) :
  logsWithin cfg (run cfg now actions).
Proof.
  unfold run. induction actions as [|a actions IH] using rev_ind.
  - apply logsWithin_boot.
  - rewrite foldl_app. cbn [foldl]. by apply logsWithin_act.
Qed.

(** X7: in every state the dashboard reaches, the alert queue holds at most
    [maxAlerts] alerts and the log at most [maxLogEntries] entries. *)
Theorem queues_stay_bounded (cfg : Config) (now : string)
    (actions : list Action) :
  ∃ q l, alertsContainer (run cfg now actions) = Some q
    ∧ (length q ≤ maxAlerts cfg)%nat
    ∧ logsContainer (run cfg now actions) = Some l
    ∧ (length l ≤ maxLogEntries cfg)%nat.
Proof.
  destruct (inv_alerts _ _ (invariant_run cfg now actions)) as (q & Hq & Hqlen).
  destruct (logsWithin_run cfg now actions) as (l & Hl & Hllen).
  by exists q, l.
Qed.

(** ** The two charts *)

Lemma length_tail_nat {A : Type} (l : list A) :
  length (tail l) = (length l - 1)%nat.
Proof. destruct l; simpl; lia. Qed.

Lemma chartsAligned_same cfg w w' :
  charts w' = charts w → chartsAligned cfg w → chartsAligned cfg w'.
Proof. intros H. unfold chartsAligned. by rewrite H. Qed.

Lemma chartsAligned_update cfg st w :
  chartsAligned cfg w → chartsAligned cfg (chartModule.update cfg st w).
Proof.
  intros (c1 & c2 & H1 & H2 & Hl & Hd1 & Hd2 & Hcap).
  unfold chartsAligned, chartModule.update, chartModule.updateChart.
  cbn [charts set_charts responseTime throughput]. rewrite H1, H2, <- Hl.
  rewrite <- Hl in Hd2.
  destruct (Nat.ltb_spec (maxChartPoints cfg) (length (labels c1 ++ [clock w])))
    as [Hlt|Hge]; eexists _, _; (split; [reflexivity|]);
    (split; [reflexivity|]); cbn [labels data];
    rewrite ?length_tail_nat, ?length_app in *; simpl in *;
    (split; [done|]); lia.
Qed.

Lemma chartsAligned_reset cfg w :
  chartsAligned cfg w → chartsAligned cfg (chartModule.reset w).
Proof.
  intros (c1 & c2 & H1 & H2 & _).
  unfold chartsAligned, chartModule.reset, chartModule.resetChart.
  cbn [charts set_charts responseTime throughput]. rewrite H1, H2.
  eexists _, _. repeat (split; [reflexivity|]). simpl. lia.
Qed.

Lemma chartsAligned_act cfg w a :
  chartsAligned cfg w → chartsAligned cfg (act cfg w a).
Proof.
  intros Hinv. destruct a as [| | |id|r|now]; cbn [act].
  - unfold controlsModule.toggleMonitoring.
    destruct (monitoringEnabled (set_monitoringEnabled _ w)).
    + rewrite start_world. cbn [outcome_world].
      eapply chartsAligned_same; [by apply addLog_frame|].
      by eapply chartsAligned_same; [|exact Hinv].
    + rewrite stop_world. cbn [outcome_world].
      eapply chartsAligned_same; [by apply addLog_frame|].
      by eapply chartsAligned_same; [|exact Hinv].
  - rewrite refresh_world. cbn [outcome_world].
    eapply chartsAligned_same; [by apply request_frame|].
    by eapply chartsAligned_same; [by apply addLog_frame|].
  - rewrite reset_world. cbn [outcome_world].
    eapply chartsAligned_same; [by apply request_frame|].
    apply chartsAligned_reset.
    eapply chartsAligned_same; [by apply addLog_frame|].
    by eapply chartsAligned_same; [by apply addLog_frame|].
  - destruct (callback <$> timers w !! id) as [[]|]; [|done..].
    by eapply chartsAligned_same; [by apply request_frame|].
  - destruct (pendingFetches w); [done|]. destruct (isFailure r) eqn:Hr.
    + destruct (settle_failure cfg r w Hr) as [e ->]. cbn [outcome_world].
      eapply chartsAligned_same; [by apply addLog_frame|].
      eapply chartsAligned_same; [by apply status_update_frame|].
      by eapply chartsAligned_same; [|exact Hinv].
    + destruct r as [e|[] [e|st]]; try discriminate Hr.
      rewrite settle_success. cbn [outcome_world].
      eapply chartsAligned_same; [by apply checkAlerts_frame|].
      eapply chartsAligned_same; [by apply status_update_frame|].
      apply chartsAligned_update.
      by eapply chartsAligned_same; [|exact Hinv].
  - by eapply chartsAligned_same; [|exact Hinv].
Qed.

Lemma chartsAligned_boot cfg now :
  chartsAligned cfg (world (outcome_world (boot cfg now))).
Proof.
  rewrite boot_world, start_world. cbn [outcome_world].
  eapply chartsAligned_same; [by apply addLog_frame|].
  exists chartModule.newChart, chartModule.newChart.
  repeat (split; [reflexivity|]). simpl. lia.
Qed.

(** X8: in every state the dashboard reaches, the response-time chart and
    the throughput chart exist and have the same labels, each label has its
    value in both, and neither holds more than [maxChartPoints] points: the
    two series advance, slide and reset together. *)
Theorem charts_stay_aligned (cfg : Config) (now : string)
    (actions : list Action) :
  ∃ c1 c2, responseTime (charts (run cfg now actions)) = Some c1
    ∧ throughput (charts (run cfg now actions)) = Some c2
    ∧ labels c1 = labels c2
    ∧ length (data c1) = length (labels c1)
    ∧ length (data c2) = length (labels c2)
    ∧ (length (labels c1) ≤ maxChartPoints cfg)%nat.
Proof.
  unfold run. induction actions as [|a actions IH] using rev_ind.
  - apply chartsAligned_boot.
  - rewrite foldl_app. cbn [foldl]. by apply chartsAligned_act.
Qed.

(** ** More on fetch failures *)

Lemma settle_failure_message cfg r w :
  isFailure r = true →
  apiService.fetchAllStats_settle (dashboardEvents cfg) r w
  = Returned
      (utilityModule.addLog cfg (Some ("[ERROR] " +:+ failureMessage r))
         (Some "error")
         (statusModule.update None false
            (set_pendingFetches (pred (pendingFetches w)) w))).
Proof.
  intros Hr. destruct r as [e|[] [e|st]]; try discriminate Hr;
    unfold apiService.fetchAllStats_settle;
    rewrite publish_fetchError; reflexivity.
Qed.

(** X9: a failed fetch appends no point: both chart series are left as they
    were (a gap, not a zero). *)
Theorem fetch_failure_keeps_charts (cfg : Config)
    (r : apiService.FetchResult) (w : World) :
  isFailure r = true →
  charts (outcome_world (apiService.fetchAllStats_settle (dashboardEvents cfg) r w))
  = charts w.
Proof.
  intros Hr. rewrite (settle_failure_message cfg r w Hr). cbn [outcome_world].
  rewrite addLog_frame by done. by rewrite status_update_frame.
Qed.

Lemma fetch_failure_keeps_charts_witness :
  charts
    (outcome_world
       (apiService.fetchAllStats_settle (dashboardEvents config)
          (apiService.Response false (apiService.Json None))
          (afterPoll "12:00:00" scenario)))
  = {| responseTime := Some {| labels := ["12:00:00"]; data := [40%Q] |};
       throughput := Some {| labels := ["12:00:00"]; data := [12%Q] |} |}.
Proof.
  rewrite (fetch_failure_keeps_charts config
             (apiService.Response false (apiService.Json None))
             (afterPoll "12:00:00" scenario)); reflexivity.
Defined.

(** X10: a failed fetch writes exactly one log entry, at the head of the
    log and in the error colour: the clock text, then ["[ERROR] "] and the
    message of the failure, which for a status that is not ok is
    ["Backend communication error"] whatever the body. *)
Theorem fetch_failure_is_logged (cfg : Config) (r : apiService.FetchResult)
    (w : World) (l : list LogEntry) :
  isFailure r = true →
  logsContainer w = Some l →
  (length l ≤ maxLogEntries cfg)%nat →
  logsContainer
    (outcome_world (apiService.fetchAllStats_settle (dashboardEvents cfg) r w))
  = Some (take (maxLogEntries cfg)
            ({| log_text := "[" +:+ clock w +:+ "] [ERROR] " +:+ failureMessage r;
                log_color := "#f87171" |} :: l)).
Proof.
  intros Hr Hl Hlen. rewrite (settle_failure_message cfg r w Hr).
  cbn [outcome_world].
  rewrite (addLog_logs cfg _ _ _ l); [|by rewrite status_update_frame|done].
  by rewrite status_update_frame.
Qed.

Lemma fetch_failure_is_logged_witness :
  logsContainer
    (outcome_world
       (apiService.fetchAllStats_settle (dashboardEvents config)
          (apiService.Response false (apiService.Json (Some scenario)))
          (page "12:00:00")))
  = Some [ {| log_text := "[12:00:00] [ERROR] Backend communication error";
              log_color := "#f87171" |} ].
Proof.
  rewrite (fetch_failure_is_logged config
             (apiService.Response false (apiService.Json (Some scenario)))
             (page "12:00:00") []).
  - reflexivity.
  - reflexivity.
  - reflexivity.
  - simpl. lia.
Defined.

(** X11: a response that is ok but whose body decodes to a falsy value
    (such as [null]) is published as a snapshot: the status nevertheless
    shows [DISCONNECTED] with the load balancer offline, both charts get a
    point of value 0, and neither an alert nor a log entry is written. *)
Theorem falsy_body_shows_disconnected (cfg : Config) (w : World)
    (l : list ServiceState) :
  serverList (elements w) = Some l →
  ∃ w', apiService.fetchAllStats_settle (dashboardEvents cfg)
          (apiService.Response true (apiService.Json None)) w = Returned w'
    ∧ textContent (overallStatus (elements w')) = "DISCONNECTED"
    ∧ serverList (elements w')
      = Some [ {| name := "Load Balancer"; isHealthy := false |} ]
    ∧ responseTime (charts w')
      = chartModule.updateChart cfg (clock w) (responseTime (charts w)) 0
    ∧ throughput (charts w')
      = chartModule.updateChart cfg (clock w) (throughput (charts w)) 0
    ∧ alertsContainer w' = alertsContainer w
    ∧ logsContainer w' = logsContainer w.
Proof.
  intros Hl. rewrite settle_success. eexists. split; [reflexivity|].
  change (alertModule.checkAlerts cfg None ?v) with v.
  unfold statusModule.update, statusModule.updateServerList.
  simpl. rewrite Hl. repeat split.
Qed.

Lemma falsy_body_shows_disconnected_witness :
  ∃ w', apiService.fetchAllStats_settle (dashboardEvents config)
          (apiService.Response true (apiService.Json None))
          (world (outcome_world (boot config "12:00:00"))) = Returned w'
    ∧ textContent (overallStatus (elements w')) = "DISCONNECTED"
    ∧ responseTime (charts w')
      = Some {| labels := ["12:00:00"]; data := [0%Q] |}.
Proof.
  destruct (falsy_body_shows_disconnected config
              (world (outcome_world (boot config "12:00:00"))) [])
    as (w' & Hw' & Hs & _ & Hc & _); [reflexivity|].
  exists w'. split; [exact Hw'|]. split; [exact Hs|]. rewrite Hc. reflexivity.
Defined.

(** ** The service list *)

Lemma serviceEntry_withService key d s entry :
  key ≠ entry.1 →
  statusModule.serviceEntry (withService key d s) entry
  = statusModule.serviceEntry s entry.
Proof.
  intros Hne. unfold statusModule.serviceEntry, withService. simpl.
  by rewrite lookup_insert_ne.
Qed.

Lemma flat_map_ext_in {A B : Type} (f g : A → list B) (l : list A) :
  (∀ x, In x l → f x = g x) → flat_map f l = flat_map g l.
Proof.
  intros H. induction l as [|x l IH]; [done|]. simpl.
  rewrite (H x) by (by left). f_equal. apply IH. intros y Hy. apply H. by right.
Qed.

Lemma unrecognised_services key d s :
  key ∉ recognisedKeys →
  flat_map (statusModule.serviceEntry (withService key d s))
    statusModule.serviceDisplayNames
  = flat_map (statusModule.serviceEntry s) statusModule.serviceDisplayNames.
Proof.
  intros Hkey. apply flat_map_ext_in. intros entry Hin.
  apply serviceEntry_withService. intros ->. apply Hkey.
  apply list_elem_of_In. unfold recognisedKeys.
  by apply (in_map fst) in Hin.
Qed.

Lemma updateServerList_withService key d s b w :
  key ∉ recognisedKeys →
  statusModule.updateServerList (Some (withService key d s)) b w
  = statusModule.updateServerList (Some s) b w.
Proof.
  intros Hkey. unfold statusModule.updateServerList.
  by rewrite (unrecognised_services key d s Hkey).
Qed.

(** X12: a key of the snapshot that is neither ['load-balancer'] nor in
    [serviceDisplayNames] is ignored: adding or changing its entry changes
    nothing of what a poll does to the dashboard (list, counts, status,
    panels, alerts, charts). *)
Theorem unrecognised_key_is_ignored (cfg : Config) (key : string)
    (d : ServiceData) (s : Stats) (w : World) :
  key ≠ "load-balancer" →
  key ∉ recognisedKeys →
  poll cfg (withService key d s) w = poll cfg s w.
Proof.
  intros _ Hkey. unfold poll. rewrite !settle_success. cbn [outcome_world].
  assert (key ≠ "database" ∧ key ≠ "cache" ∧ key ≠ "auth") as (Hdb & Hc & Ha).
  { repeat split; intros ->; apply Hkey; apply list_elem_of_In; simpl; tauto. }
  assert (∀ v, statusModule.update (Some (withService key d s)) true v
               = statusModule.update (Some s) true v) as Hupd.
  { intros v. unfold statusModule.update.
    rewrite (updateServerList_withService key d s true v Hkey).
    unfold withService. cbn [services load_balancer].
    by rewrite !lookup_insert_ne. }
  assert (∀ v, alertModule.checkAlerts cfg (Some (withService key d s)) v
               = alertModule.checkAlerts cfg (Some s) v) as Hchk.
  { intros v. unfold alertModule.checkAlerts.
    change (Some (withService key d s) ≫= load_balancer)
      with (Some s ≫= load_balancer).
    destruct (Some s ≫= load_balancer) as [lb|]; [|done].
    by rewrite (updateServerList_withService key d s true _ Hkey). }
  rewrite Hchk, Hupd. reflexivity.
Qed.

Lemma unrecognised_key_is_ignored_witness :
  poll config
    (withService "health_check"
       {| status := Some "down"; service_status := None; hit_ratio := None;
          active_session_count := None |} scenario)
    (world (outcome_world (boot config "12:00:00")))
  = afterPoll "12:00:00" scenario.
Proof.
  apply (unrecognised_key_is_ignored config "health_check"); [discriminate|].
  intros H. apply list_elem_of_In in H. simpl in H.
  repeat (destruct H as [H|H]; [discriminate H|]). exact H.
Defined.

Lemma serviceEntries_sublist s (table : list (string * string)) :
  name <$> flat_map (statusModule.serviceEntry s) table `sublist_of` table.*2.
Proof.
  induction table as [|entry table IH]; [done|]. simpl.
  unfold statusModule.serviceEntry at 1.
  destruct (services s !! entry.1); simpl.
  - by apply sublist_skip.
  - by apply sublist_cons.
Qed.

(** X13: the service list starts with the load balancer, whose health is
    the flag passed in; the entries after it bear display names of
    [serviceDisplayNames], each at most once and in the order of the table,
    so at most six follow; and the list rendered in the page is the list
    returned. *)
Theorem server_list_order (st : option Stats) (isLbHealthy : bool)
    (w : World) (l : list ServiceState) :
  serverList (elements w) = Some l →
  ∃ others,
    (statusModule.updateServerList st isLbHealthy w).1
    = {| name := "Load Balancer"; isHealthy := isLbHealthy |} :: others
    ∧ serverList (elements (statusModule.updateServerList st isLbHealthy w).2)
      = Some ({| name := "Load Balancer"; isHealthy := isLbHealthy |} :: others)
    ∧ name <$> others `sublist_of` statusModule.serviceDisplayNames.*2
    ∧ (length others ≤ 6)%nat.
Proof.
  intros Hl. unfold statusModule.updateServerList. rewrite Hl.
  eexists. split; [reflexivity|]. split; [reflexivity|].
  assert (name <$> match st with
                   | Some s =>
                       flat_map (statusModule.serviceEntry s)
                         statusModule.serviceDisplayNames
                   | None => []
                   end `sublist_of` statusModule.serviceDisplayNames.*2) as Hsub.
  { destruct st as [s|]; [apply serviceEntries_sublist | apply sublist_nil_l]. }
  split; [exact Hsub|].
  apply sublist_length in Hsub. by rewrite length_fmap in Hsub.
Qed.

Lemma server_list_order_witness :
  ∃ others,
    (statusModule.updateServerList (Some scenario) true (page "t")).1
    = {| name := "Load Balancer"; isHealthy := true |} :: others
    ∧ (length others ≤ 6)%nat.
Proof.
  destruct (server_list_order (Some scenario) true (page "t") [])
    as (others & H1 & _ & _ & H4); [reflexivity|].
  exists others. split; [exact H1 | exact H4].
Defined.

(** X14: the database panel reads [status] only, the service list reads
    [status] or [service_status]. A database entry that reports
    [service_status: 'online'] without [status: 'healthy'] is therefore
    listed as healthy while the panel shows [OFFLINE]. *)
Theorem database_panel_reads_status_only (s : Stats) (w : World)
    (l : list ServiceState) (d : ServiceData) :
  serverList (elements w) = Some l →
  services s !! "database" = Some d →
  status d ≠ Some "healthy" →
  service_status d = Some "online" →
  let w' := statusModule.update (Some s) true w in
  dbStatus (elements w')
  = {| textContent := "OFFLINE"; className := "metric-value metric-danger" |}
  ∧ ∃ shown_list, serverList (elements w') = Some shown_list
      ∧ In {| name := "Database"; isHealthy := true |} shown_list.
Proof.
  intros Hl Hd Hst Hss w'. subst w'. unfold statusModule.update.
  rewrite (updateServerList_present s w l Hl).
  assert (Js.str_is (status d) "healthy" = false) as Hno.
  { unfold Js.str_is. destruct (status d) as [v|]; [|done].
    apply bool_decide_eq_false. congruence. }
  assert (reportsHealthy d = true) as Hyes.
  { unfold reportsHealthy. rewrite Hss. simpl. apply orb_true_r. }
  split.
  - cbn [elements set_elements dbStatus]. rewrite Hd.
    cbn [mbind option_bind]. by rewrite Hno.
  - exists (serviceStatesOf s). split; [reflexivity|].
    assert (In ("database", "Database") statusModule.serviceDisplayNames)
      as Hk by (simpl; tauto).
    pose proof (in_serviceStatesOf s "database" "Database" d Hk Hd) as Hin.
    by rewrite Hyes in Hin.
Qed.

Lemma database_panel_reads_status_only_witness :
  let s := {| load_balancer := None;
              services := {[ "database" :=
                {| status := None; service_status := Some "online";
                   hit_ratio := None; active_session_count := None |} ]} |} in
  let w' := statusModule.update (Some s) true (page "t") in
  textContent (dbStatus (elements w')) = "OFFLINE"
  ∧ textContent (overallStatus (elements w')) = "HEALTHY".
Proof.
  intros s w'.
  destruct (database_panel_reads_status_only s (page "t") []
              {| status := None; service_status := Some "online";
                 hit_ratio := None; active_session_count := None |})
    as [Hdb _]; try reflexivity; [discriminate|].
  split; [unfold w'; by rewrite Hdb | reflexivity].
Defined.

(** ** The threshold rules *)

Lemma no_down_services s :
  (∀ key display d, In (key, display) statusModule.serviceDisplayNames →
     services s !! key = Some d → reportsHealthy d = true) →
  downServicesOf s = [].
Proof.
  intros Hall. unfold downServicesOf.
  assert (∀ x, In x (serviceStatesOf s) → isHealthy x = true) as Hh.
  { intros x Hx.
    apply serviceStatesOf_inv in Hx as [->|(k & n & d & Hk & Hd & ->)];
      [done|]. simpl. by eapply Hall. }
  induction (serviceStatesOf s) as [|x l IH]; [done|]. simpl.
  rewrite (Hh x) by (by left). simpl. apply IH. intros y Hy. apply Hh. by right.
Qed.

(** X15: no false alarm. On a snapshot whose success rate is absent or at
    least 95, whose response time is absent or at most 500 ms, and whose
    recognised services all report healthy, [checkAlerts] leaves the alert
    queue exactly as it was. *)
Theorem quiet_snapshot_raises_nothing (cfg : Config) (s : Stats) (w : World) :
  (∀ lb sr, load_balancer s = Some lb → success_rate lb = Some sr →
     Js.lt sr 95 = false) →
  (∀ lb rt, load_balancer s = Some lb → avg_response_time_ms lb = Some rt →
     Js.gt rt 500 = false) →
  (∀ key display d, In (key, display) statusModule.serviceDisplayNames →
     services s !! key = Some d → reportsHealthy d = true) →
  alertsContainer (alertModule.checkAlerts cfg (Some s) w) = alertsContainer w.
Proof.
  intros Hsr Hrt Hall. unfold alertModule.checkAlerts.
  change (Some s ≫= load_balancer) with (load_balancer s).
  destruct (load_balancer s) as [lb|] eqn:Hlb; [|done].
  destruct (success_rate lb) as [sr|] eqn:Esr;
    [rewrite (Hsr lb sr eq_refl Esr)|];
    (destruct (avg_response_time_ms lb) as [rt|] eqn:Ert;
     [rewrite (Hrt lb rt eq_refl Ert)|]);
    unfold statusModule.updateServerList;
    (destruct (serverList (elements w)) as [l|]; [|done]);
    fold (serviceStatesOf s); fold (downServicesOf s);
    by rewrite (no_down_services s Hall).
Qed.

Lemma quiet_snapshot_raises_nothing_witness :
  alertsContainer
    (alertModule.checkAlerts config (Some quietSnapshot)
       (afterPoll "12:00:00" bothDown))
  = Some [ alertModule.newAlert "error"
             "Auth Service, Database service(s) are down." ].
Proof.
  rewrite (quiet_snapshot_raises_nothing config quietSnapshot
             (afterPoll "12:00:00" bothDown)).
  - reflexivity.
  - intros lb sr [= <-] [= <-]. reflexivity.
  - intros lb rt [= <-] [= <-]. reflexivity.
  - intros key display d Hin Hd. simpl in Hin.
    repeat (destruct Hin as [[= <- <-]|Hin];
            [vm_compute in Hd; try discriminate Hd; by injection Hd as <-|]).
    destruct Hin.
Defined.

Lemma shown_suffix m (q q' : list Element) :
  q `suffix_of` q' → shown m q = true → shown m q' = true.
Proof.
  intros [k ->] H. unfold shown in *. rewrite existsb_app, H. apply orb_true_r.
Qed.

(** With room in the queue, [addAlert] evicts nothing: the queued alerts stay
    where they are, at most one alert is put in front of them, and the
    message is shown afterwards. *)
Lemma addAlert_grows cfg t m w q :
  alertsContainer w = Some q →
  (length q < maxAlerts cfg)%nat →
  ∃ q', alertsContainer (alertModule.addAlert cfg t m w) = Some q'
    ∧ q `suffix_of` q'
    ∧ (length q' ≤ S (length q))%nat
    ∧ shown m q' = true.
Proof.
  intros Hq Hroom. destruct (shown m q) eqn:Hs.
  - exists q. rewrite (addAlert_skips cfg t m w q Hq Hs).
    repeat split; [done|done|lia|done].
  - exists (alertModule.newAlert t m :: q).
    rewrite (addAlert_inserts cfg t m w q Hq) by (done || lia).
    destruct (Nat.ltb_spec (maxAlerts cfg) (S (length q))) as [Hlt|_]; [lia|].
    repeat split; [by apply suffix_cons_r|simpl; lia|].
    unfold shown. cbn [existsb]. by rewrite includes_newAlert.
Qed.

(** A rule of [checkAlerts]: an alert is submitted when [fires] holds. *)
Lemma rule_grows cfg (fires : bool) t m w q :
  alertsContainer w = Some q →
  (length q < maxAlerts cfg)%nat →
  ∃ q', alertsContainer (if fires then alertModule.addAlert cfg t m w else w)
        = Some q'
    ∧ q `suffix_of` q'
    ∧ (length q' ≤ S (length q))%nat
    ∧ (fires = true → shown m q' = true).
Proof.
  intros Hq Hroom. destruct fires.
  - destruct (addAlert_grows cfg t m w q Hq Hroom) as (q' & H1 & H2 & H3 & H4).
    by exists q'.
  - exists q. repeat split; [done|done|lia|done].
Qed.

Lemma addAlert_alerts_ext cfg t m v v' :
  alertsContainer v = alertsContainer v' →
  alertsContainer (alertModule.addAlert cfg t m v)
  = alertsContainer (alertModule.addAlert cfg t m v').
Proof.
  intros H. unfold alertModule.addAlert. rewrite H.
  destruct (alertsContainer v') as [q|] eqn:E; [|by rewrite H].
  destruct (existsb _ _); [by rewrite H | done].
Qed.

(** The alert queue after [checkAlerts]: the three rules in turn. *)
Lemma checkAlerts_alerts cfg s lb w :
  load_balancer s = Some lb →
  ∃ down,
    alertsContainer (alertModule.checkAlerts cfg (Some s) w)
    = alertsContainer
        (if (0 <? length down)%nat
         then alertModule.addAlert cfg "error" (alertModule.downMessage down)
                (afterThresholdRules cfg lb w)
         else afterThresholdRules cfg lb w).
Proof.
  intros Hlb. unfold alertModule.checkAlerts.
  change (Some s ≫= load_balancer) with (load_balancer s). rewrite Hlb.
  fold (afterThresholdRules cfg lb w).
  pose proof (updateServerList_frame alertsContainer (Some s) true
                (afterThresholdRules cfg lb w) (λ _ _, eq_refl)) as H3.
  destruct (statusModule.updateServerList (Some s) true _) as [states w3].
  simpl in H3.
  exists (List.filter (λ x, negb (isHealthy x)) states).
  destruct (_ <? _)%nat; [by apply addAlert_alerts_ext | done].
Qed.

Lemma thresholds_then_services cfg s lb w q :
  load_balancer s = Some lb →
  alertsContainer w = Some q →
  (length q + 3 ≤ maxAlerts cfg)%nat →
  ∃ qa qb qc,
    alertsContainer (alertModule.checkAlerts cfg (Some s) w) = Some qc
    ∧ q `suffix_of` qa ∧ qa `suffix_of` qb ∧ qb `suffix_of` qc
    ∧ (length qc ≤ length q + 3)%nat
    ∧ (∀ sr, success_rate lb = Some sr → Js.lt sr 95 = true →
         shown ("Success rate is low: " +:+ Js.toFixed1 sr +:+ "%") qa = true)
    ∧ (∀ rt, avg_response_time_ms lb = Some rt → Js.gt rt 500 = true →
         shown ("High response time: " +:+ Js.toFixed1 rt +:+ "ms") qb = true).
Proof.
  intros Hlb Hq Hroom.
  destruct (checkAlerts_alerts cfg s lb w Hlb) as [down ->].
  unfold afterThresholdRules.
  set (wa := match success_rate lb with
             | Some sr =>
                 if Js.lt sr 95
                 then alertModule.addAlert cfg "warning"
                        ("Success rate is low: " +:+ Js.toFixed1 sr +:+ "%") w
                 else w
             | None => w
             end).
  assert (∃ qa, alertsContainer wa = Some qa ∧ q `suffix_of` qa
            ∧ (length qa ≤ S (length q))%nat
            ∧ ∀ sr, success_rate lb = Some sr → Js.lt sr 95 = true →
                shown ("Success rate is low: " +:+ Js.toFixed1 sr +:+ "%") qa
                = true) as (qa & Hqa & Hsa & Hla & Hshown_a).
  { subst wa. destruct (success_rate lb) as [sr|].
    - destruct (rule_grows cfg (Js.lt sr 95) "warning"
                  ("Success rate is low: " +:+ Js.toFixed1 sr +:+ "%") w q Hq)
        as (qa & H1 & H2 & H3 & H4); [lia|].
      exists qa. repeat split; try done. by intros ? [= <-].
    - exists q. repeat split; [done|done|lia|done]. }
  set (wb := match avg_response_time_ms lb with
             | Some rt =>
                 if Js.gt rt 500
                 then alertModule.addAlert cfg "warning"
                        ("High response time: " +:+ Js.toFixed1 rt +:+ "ms") wa
                 else wa
             | None => wa
             end).
  assert (∃ qb, alertsContainer wb = Some qb ∧ qa `suffix_of` qb
            ∧ (length qb ≤ S (length qa))%nat
            ∧ ∀ rt, avg_response_time_ms lb = Some rt → Js.gt rt 500 = true →
                shown ("High response time: " +:+ Js.toFixed1 rt +:+ "ms") qb
                = true) as (qb & Hqb & Hsb & Hlb' & Hshown_b).
  { subst wb. destruct (avg_response_time_ms lb) as [rt|].
    - destruct (rule_grows cfg (Js.gt rt 500) "warning"
                  ("High response time: " +:+ Js.toFixed1 rt +:+ "ms") wa qa Hqa)
        as (qb & H1 & H2 & H3 & H4); [lia|].
      exists qb. repeat split; try done. by intros ? [= <-].
    - exists qa. repeat split; [done|done|lia|done]. }
  destruct (rule_grows cfg (0 <? length down)%nat "error"
              (alertModule.downMessage down) wb qb Hqb)
    as (qc & Hqc & Hsc & Hlc & _); [lia|].
  exists qa, qb, qc. repeat split; try done. lia.
Qed.

(** X16: rule A. When the reported success rate is below 95 (and above
    -10^21, where [toFixed] still writes digits) and the queue has room for
    three more alerts, then after [checkAlerts] the queue shows the message
    ["Success rate is low: "], the rate to one decimal and ["%"]; the alerts
    queued before are still there, in place, behind at most three new
    ones. *)
Theorem low_success_rate_is_shown (cfg : Config) (s : Stats) (lb : LbData)
    (sr : Q) (w : World) (q : list Element) :
  load_balancer s = Some lb →
  success_rate lb = Some sr →
  Js.lt sr 95 = true →
  Js.fixedRange sr = true →
  alertsContainer w = Some q →
  (length q + 3 ≤ maxAlerts cfg)%nat →
  ∃ q', alertsContainer (alertModule.checkAlerts cfg (Some s) w) = Some q'
    ∧ shown ("Success rate is low: " +:+ Js.toFixed1 sr +:+ "%") q' = true
    ∧ q `suffix_of` q'
    ∧ (length q' ≤ length q + 3)%nat.
Proof.
  intros Hlb Hsr Hlow _ Hq Hroom.
  destruct (thresholds_then_services cfg s lb w q Hlb Hq Hroom)
    as (qa & qb & qc & Hqc & Hsa & Hsb & Hsc & Hlen & Ha & _).
  exists qc. split; [exact Hqc|]. split.
  - eapply shown_suffix; [|by apply (Ha sr)]. by etrans.
  - split; [|exact Hlen]. etrans; [exact Hsa|]. by etrans.
Qed.

Lemma low_success_rate_is_shown_witness :
  ∃ q', alertsContainer
          (alertModule.checkAlerts config (Some struggling) (page "t")) = Some q'
    ∧ shown "Success rate is low: 80.0%" q' = true.
Proof.
  destruct (low_success_rate_is_shown config struggling
              {| success_rate := Some 80%Q; avg_response_time_ms := Some 750%Q;
                 requests_per_second := None; total_requests := None |}
              80%Q (page "t") [])
    as (q' & H1 & H2 & _); try reflexivity; [simpl; lia|].
  exists q'. split; [exact H1 | exact H2].
Defined.

(** X17: rule B. When the reported average response time is above 500 ms
    (and below 10^21, where [toFixed] still writes digits) and the queue has
    room for three more alerts, then after [checkAlerts] the queue shows the
    message ["High response time: "], the time to one decimal and ["ms"];
    the alerts queued before are still there, in place, behind at most
    three new ones. *)
Theorem high_response_time_is_shown (cfg : Config) (s : Stats) (lb : LbData)
    (rt : Q) (w : World) (q : list Element) :
  load_balancer s = Some lb →
  avg_response_time_ms lb = Some rt →
  Js.gt rt 500 = true →
  Js.fixedRange rt = true →
  alertsContainer w = Some q →
  (length q + 3 ≤ maxAlerts cfg)%nat →
  ∃ q', alertsContainer (alertModule.checkAlerts cfg (Some s) w) = Some q'
    ∧ shown ("High response time: " +:+ Js.toFixed1 rt +:+ "ms") q' = true
    ∧ q `suffix_of` q'
    ∧ (length q' ≤ length q + 3)%nat.
Proof.
  intros Hlb Hrt Hhigh _ Hq Hroom.
  destruct (thresholds_then_services cfg s lb w q Hlb Hq Hroom)
    as (qa & qb & qc & Hqc & Hsa & Hsb & Hsc & Hlen & _ & Hb).
  exists qc. split; [exact Hqc|]. split.
  - eapply shown_suffix; [exact Hsc|by apply (Hb rt)].
  - split; [|exact Hlen]. etrans; [exact Hsa|]. by etrans.
Qed.

Lemma high_response_time_is_shown_witness :
  ∃ q', alertsContainer
          (alertModule.checkAlerts config (Some struggling) (page "t")) = Some q'
    ∧ shown "High response time: 750.0ms" q' = true.
Proof.
  destruct (high_response_time_is_shown config struggling
              {| success_rate := Some 80%Q; avg_response_time_ms := Some 750%Q;
                 requests_per_second := None; total_requests := None |}
              750%Q (page "t") [])
    as (q' & H1 & H2 & _); try reflexivity; [simpl; lia|].
  exists q'. split; [exact H1 | exact H2].
Defined.

(** ** A subscriber that throws during a successful poll *)

Lemma publish_subscribe_same {W D : Type} (ev : Events W D) n
    (cb : Callback W D) data w :
  publish (subscribe n cb ev) n data w = andThen (publish ev n data w) (cb data).
Proof.
  unfold publish. rewrite lookup_subscribe_eq.
  destruct (ev !! n) as [l|]; simpl.
  - rewrite forEach_app. destruct (forEach l data w); simpl; [|done].
    by destruct (cb data _).
  - by destruct (cb data w).
Qed.

Lemma publish_subscribe_other {W D : Type} (ev : Events W D) n other
    (cb : Callback W D) data w :
  n ≠ other →
  publish (subscribe n cb ev) other data w = publish ev other data w.
Proof. intros Hne. unfold publish. by rewrite lookup_subscribe_ne. Qed.

(** X18: the [publish] of ['statsUpdated'] sits inside the [try] of
    [fetchAllStats]. When one more subscriber of ['statsUpdated'] is added
    after the dashboard's own and throws [e] on a decoded answer, the chart,
    status and alert subscribers have already run, and the poll then ends as
    a fetch failure: on the world the thrower left, the overall status reads
    DISCONNECTED and ["[ERROR] "] followed by the message of [e] is
    logged. *)
Theorem subscriber_failure_ends_as_fetch_failure (cfg : Config)
    (cb : Callback World (option Payload)) (e : JsError) (st : option Stats)
    (w w1 : World) :
  cb (apiService.statsUpdated st)
     (outcome_world
        (apiService.fetchAllStats_settle (dashboardEvents cfg)
           (apiService.Response true (apiService.Json st)) w))
  = Threw e w1 →
  ∃ w',
    apiService.fetchAllStats_settle
      (subscribe "statsUpdated" cb (dashboardEvents cfg))
      (apiService.Response true (apiService.Json st)) w
    = Returned w'
    ∧ w' = utilityModule.addLog cfg (Some ("[ERROR] " +:+ error_message e))
             (Some "error") (statusModule.update None false w1)
    ∧ textContent (overallStatus (elements w')) = "DISCONNECTED"
    ∧ charts w' = charts w1
    ∧ alertsContainer w' = alertsContainer w1.
Proof.
  rewrite settle_success. cbn [outcome_world]. intros Hcb.
  eexists. split.
  - unfold apiService.fetchAllStats_settle.
    rewrite publish_subscribe_same, publish_statsUpdated. cbn [andThen].
    rewrite Hcb. rewrite publish_subscribe_other by done.
    apply publish_fetchError.
  - split; [reflexivity|]. split; [|split].
    + rewrite elements_addLog. unfold statusModule.update.
      unfold statusModule.updateServerList. cbn [elements set_elements].
      by destruct (serverList _).
    + rewrite (addLog_frame charts) by done.
      by rewrite (status_update_frame charts).
    + rewrite (addLog_frame alertsContainer) by done.
      by rewrite (status_update_frame alertsContainer).
Qed.

Lemma subscriber_failure_ends_as_fetch_failure_witness :
  ∃ w',
    apiService.fetchAllStats_settle
      (withThrowingSubscriber config {| error_message := "boom" |})
      (apiService.Response true (apiService.Json (Some quietSnapshot)))
      (world (outcome_world (boot config "12:00:00")))
    = Returned w'
    ∧ textContent (overallStatus (elements w')) = "DISCONNECTED"
    ∧ (data <$> responseTime (charts w')) = Some [40%Q].
Proof.
  destruct (subscriber_failure_ends_as_fetch_failure config
              (λ _ w, Threw {| error_message := "boom" |} w)
              {| error_message := "boom" |} (Some quietSnapshot)
              (world (outcome_world (boot config "12:00:00")))
              (afterPoll "12:00:00" quietSnapshot) eq_refl)
    as (w' & H1 & H2 & H3 & H4 & _).
  exists w'. split; [exact H1|]. split; [exact H3|].
  rewrite H4. vm_compute. reflexivity.
Defined.

(** ** main *)

(** The subscriptions [main] makes are the same on every page. *)
Lemma main_events cfg :
  subscribe "fetchError" (destructuring (utilityModule.onFetchError cfg))
    (subscribe "log"
       (destructuring
          (λ p w, Returned (utilityModule.addLog cfg (message p) (type p) w)))
       (subscribe "statsUpdated"
          (destructuring
             (λ p w, Returned (alertModule.checkAlerts cfg (stats p) w)))
          (subscribe "fetchError"
             (destructuring
                (λ p w, Returned (statusModule.update None (isFetchSuccess p) w)))
             (subscribe "statsUpdated"
                (destructuring
                   (λ p w,
                      Returned
                        (statusModule.update (stats p) (isFetchSuccess p) w)))
                (subscribe "reset" (λ _ w, Returned (chartModule.reset w))
                   (subscribe "statsUpdated"
                      (destructuring
                         (λ p w, Returned (chartModule.update cfg (stats p) w)))
                      ∅))))))
  = dashboardEvents cfg.
Proof. reflexivity. Qed.

(** X19: a page without [#server-list] stops [main]. [setInitialState]
    dereferences the element without a test, so [statusModule.init] throws a
    TypeError and the rest of [main] does not run: no timer is armed, no
    request is sent, nothing is logged and ['log'] has no subscriber; the
    overall status stays at CONNECTING.... *)
Theorem main_stops_without_server_list (cfg : Config) (w : World) :
  serverList (elements w) = None →
  ∃ sys,
    main cfg {| events := ∅; world := w |} = Threw TypeError sys
    ∧ events sys !! "log" = None
    ∧ timers (world sys) = timers w
    ∧ fetchIntervalId (world sys) = fetchIntervalId w
    ∧ pendingFetches (world sys) = pendingFetches w
    ∧ logsContainer (world sys) = logsContainer w
    ∧ textContent (overallStatus (elements (world sys))) = "CONNECTING...".
Proof.
  intros H. eexists. split.
  - unfold main, chartModule.init. cbn [andThen world events].
    unfold statusModule.init, statusModule.setInitialState.
    cbn [world events chartModule.init_charts set_charts elements].
    rewrite H. cbn [andThen]. reflexivity.
  - cbn [events world]. repeat split. 
Qed.

Lemma main_stops_without_server_list_witness :
  ∃ sys,
    main config
      {| events := ∅;
         world := set_elements
                    (statusModule.set_serverList None (elements (page "t")))
                    (page "t") |}
    = Threw TypeError sys
    ∧ timers (world sys) = ∅.
Proof.
  destruct (main_stops_without_server_list config
              (set_elements
                 (statusModule.set_serverList None (elements (page "t")))
                 (page "t")) eq_refl)
    as (sys & H1 & _ & H2 & _).
  exists sys. split; [exact H1 | exact H2].
Defined.

(** X20: on a page that has [#server-list], [main] returns. It leaves the
    subscriptions of the running dashboard and the world that the
    initialisers, the first log line and [apiService.start] produce in that
    order; monitoring is on, the overall status reads CONNECTING..., the
    server list is empty, one request more is in flight, and the handle kept
    by [apiService] is that of an active polling timer. *)
Theorem main_starts_the_dashboard (cfg : Config) (w : World)
    (l : list ServiceState) :
  serverList (elements w) = Some l →
  ∃ w',
    main cfg {| events := ∅; world := w |}
    = Returned {| events := dashboardEvents cfg; world := w' |}
    ∧ monitoringEnabled w' = true
    ∧ textContent (overallStatus (elements w')) = "CONNECTING..."
    ∧ serverList (elements w') = Some []
    ∧ pendingFetches w' = S (pendingFetches w)
    ∧ (∃ id, fetchIntervalId w' = Some id
         ∧ timers w' !! id = Some (pollingTimer cfg)).
Proof.
  intros H.
  assert (∃ v, statusModule.setInitialState (chartModule.init_charts w)
               = Returned v
             ∧ textContent (overallStatus (elements v)) = "CONNECTING..."
             ∧ serverList (elements v) = Some []
             ∧ pendingFetches v = pendingFetches w) as (v & Hv & Hs & Hl & Hp).
  { unfold statusModule.setInitialState.
    cbn [chartModule.init_charts set_charts elements]. rewrite H.
    eexists. split; [reflexivity|]. by repeat split. }
  set (v1 := utilityModule.addLog cfg
               (Some "Monitoring dashboard initialized.") None
               (setInterval UpdateTime 1000 v).2).
  exists (outcome_world (apiService.start cfg (dashboardEvents cfg) v1)).
  split.
  - unfold main, chartModule.init. cbn [andThen world events].
    unfold statusModule.init. cbn [world events]. rewrite Hv.
    cbn [andThen]. unfold alertModule.init. cbn [andThen world events].
    unfold utilityModule.init. cbn [andThen world events].
    rewrite main_events. unfold onWorld at 1. cbn [world events].
    rewrite publish_log. cbn [andThen]. unfold onWorld. cbn [world events].
    fold v1. by rewrite start_world.
  - assert (elements v1 = elements v) as He.
    { subst v1. by rewrite elements_addLog. }
    assert (pendingFetches v1 = pendingFetches v) as Hp1.
    { subst v1. by rewrite (addLog_frame pendingFetches). }
    rewrite start_world. cbn [outcome_world].
    rewrite elements_addLog. rewrite !(addLog_frame _) by done.
    cbn. rewrite He, Hp1, Hp. repeat split; try done.
    eexists. split; [reflexivity|]. by rewrite lookup_insert_eq.
Qed.

Lemma main_starts_the_dashboard_witness :
  ∃ w',
    boot config "12:00:00"
    = Returned {| events := dashboardEvents config; world := w' |}
    ∧ monitoringEnabled w' = true
    ∧ pendingFetches w' = 1%nat.
Proof.
  destruct (main_starts_the_dashboard config (page "12:00:00") [] eq_refl)
    as (w' & H1 & H2 & _ & _ & H3 & _).
  exists w'. split; [exact H1|]. split; [exact H2 | exact H3].
Defined.

(** ** The reset and refresh buttons *)

(** X21: the reset button empties both chart series and nothing else that
    is shown: each chart that exists is left with no label and no value
    (and one that does not exist is not created), the alerts, the status
    panel and the timers are left as they were, the log gains the two lines
    ["Resetting statistics..."] and ["Statistics have been reset."], and a
    new request goes out exactly when monitoring is on. *)
Theorem reset_clears_the_charts_only (cfg : Config) (w : World) :
  ∃ w',
    controlsModule.reset (dashboardEvents cfg) w = Returned w'
    ∧ responseTime (charts w')
      = (λ _, {| labels := []; data := [] |}) <$> responseTime (charts w)
    ∧ throughput (charts w')
      = (λ _, {| labels := []; data := [] |}) <$> throughput (charts w)
    ∧ alertsContainer w' = alertsContainer w
    ∧ elements w' = elements w
    ∧ timers w' = timers w
    ∧ monitoringEnabled w' = monitoringEnabled w
    ∧ logsContainer w'
      = logsContainer
          (addLogs cfg [ (Some "Resetting statistics...", None);
                         (Some "Statistics have been reset.", None) ] w)
    ∧ pendingFetches w'
      = if monitoringEnabled w then S (pendingFetches w) else pendingFetches w.
Proof.
  eexists. split; [apply reset_world|].
  set (v := utilityModule.addLog cfg (Some "Statistics have been reset.") None
              (utilityModule.addLog cfg (Some "Resetting statistics...") None w)).
  assert (∀ A (f : World → A),
            (∀ x v, f (set_logsContainer x v) = f v) → f v = f w) as Hlog.
  { intros A f Hf. subst v. by rewrite !(addLog_frame f). }
  assert (monitoringEnabled (chartModule.reset v) = monitoringEnabled w) as Hm.
  { cbn. by apply Hlog. }
  assert (pendingFetches (chartModule.reset v) = pendingFetches w) as Hp.
  { cbn. by apply Hlog. }
  assert (charts (apiService.fetchAllStats_request (chartModule.reset v))
          = charts (chartModule.reset w)) as Hc.
  { rewrite (request_frame charts) by done. cbn.
    by rewrite (Hlog _ charts). }
  repeat split.
  - rewrite Hc. cbn. by destruct (responseTime (charts w)).
  - rewrite Hc. cbn. by destruct (throughput (charts w)).
  - rewrite (request_frame alertsContainer) by done. cbn. by apply Hlog.
  - rewrite (request_frame elements) by done. cbn. by apply Hlog.
  - rewrite (request_frame timers) by done. cbn. by apply Hlog.
  - rewrite (request_frame monitoringEnabled) by done. exact Hm.
  - by rewrite (request_frame logsContainer).
  - unfold apiService.fetchAllStats_request. rewrite Hm.
    destruct (monitoringEnabled w); [cbn; by rewrite <- Hp | exact Hp].
Qed.

(** X22: the refresh button always logs ["Manual refresh triggered."], but
    it sends a request only while monitoring is on; while paused the click
    changes nothing but the log. *)
Theorem refresh_needs_monitoring (cfg : Config) (w : World) :
  ∃ w',
    controlsModule.refresh (dashboardEvents cfg) w = Returned w'
    ∧ logsContainer w'
      = logsContainer
          (utilityModule.addLog cfg (Some "Manual refresh triggered.") None w)
    ∧ pendingFetches w'
      = (if monitoringEnabled w then S (pendingFetches w)
         else pendingFetches w)
    ∧ charts w' = charts w
    ∧ alertsContainer w' = alertsContainer w
    ∧ elements w' = elements w
    ∧ timers w' = timers w.
Proof.
  eexists. split; [apply refresh_world|].
  set (v := utilityModule.addLog cfg (Some "Manual refresh triggered.") None w).
  assert (∀ A (f : World → A),
            (∀ x v, f (set_logsContainer x v) = f v) → f v = f w) as Hlog.
  { intros A f Hf. subst v. by rewrite (addLog_frame f). }
  repeat split.
  - by rewrite (request_frame logsContainer).
  - unfold apiService.fetchAllStats_request.
    rewrite (Hlog _ monitoringEnabled) by done.
    destruct (monitoringEnabled w); cbn; by rewrite (Hlog _ pendingFetches).
  - rewrite (request_frame charts) by done. by apply Hlog.
  - rewrite (request_frame alertsContainer) by done. by apply Hlog.
  - rewrite (request_frame elements) by done. by apply Hlog.
  - rewrite (request_frame timers) by done. by apply Hlog.
Qed.
